(** * Satellite visibility pipeline: python-sgp4 and python-skyfield calculators

    A shallow embedding of [implementations/python-sgp4/src/calculator.py]
    and [implementations/python-skyfield/src/calculator.py], and the
    properties of the time grid, the sample generator and the window
    segmenter.

    Modelling conventions.
    - A Python [float] is modelled by the rational number it denotes ([Q]);
      a decimal literal denotes its decimal value and arithmetic is exact.
      NaN and infinities are not represented.  [Binary64.fl] rounds a
      rational to binary64 where a result depends on it: [round] on a
      numpy float64, in [TypedSegmenter].
    - A timezone-aware UTC [datetime] is modelled by its instant: the number
      of microseconds since 0001-01-01T00:00:00 (the origin of Python's
      proleptic Gregorian ordinal).  [Datetime.add] is the arithmetic on
      instants; [Datetime.add_checked] and [Datetime.timedelta_of_seconds]
      add the OverflowError of Python at the limits of [datetime] and
      [timedelta], and [Bounded] is the time grid and the calculators
      with them.
    - A dict with a fixed set of keys is a record.
    - External collaborators (the orbit propagator, the [math] functions,
      the Skyfield objects) are section variables. *)

From Stdlib Require Import ZArith QArith Qround Qabs List Sorted String Ascii Lia Lqa Bool.
Import ListNotations.

Local Open Scope Z_scope.

(* ================================================================== *)
(** * Python built-ins used by the calculators *)
(* ================================================================== *)

(** ** Exceptions and the error monad *)

Inductive exn : Type :=
| IndexError
| TypeError
| AttributeError
| OverflowError.

Inductive result (A : Type) : Type :=
| Ok (a : A)
| Raise (e : exn).

Arguments Ok {A} a.
Arguments Raise {A} e.

Definition bind {A B : Type} (m : result A) (k : A -> result B) : result B :=
  match m with
  | Ok a => k a
  | Raise e => Raise e
  end.

Notation "x <- m ;; k" := (bind m (fun x => k))
  (at level 61, m at next level, right associativity).

(** [for x in xs: st = body st x], stopping at the first exception. *)
Fixpoint for_each {S X : Type} (body : S -> X -> result S) (xs : list X) (st : S)
  : result S :=
  match xs with
  | [] => Ok st
  | x :: rest => st' <- body st x ;; for_each body rest st'
  end.

(** [enumerate(xs)], counting from [i]. *)
Fixpoint enumerate_from {X : Type} (i : nat) (xs : list X) : list (nat * X) :=
  match xs with
  | [] => []
  | x :: rest => (i, x) :: enumerate_from (S i) rest
  end.

Definition enumerate {X : Type} (xs : list X) : list (nat * X) :=
  enumerate_from 0 xs.

(** [xs[i]] for a Python list: a negative index counts from the end, an
    index outside [-len, len) raises IndexError. *)
Definition getitem {X : Type} (xs : list X) (i : Z) : result X :=
  let n := Z.of_nat (List.length xs) in
  let j := if i <? 0 then i + n else i in
  if (j <? 0) || (n <=? j) then Raise IndexError
  else match nth_error xs (Z.to_nat j) with
       | Some x => Ok x
       | None => Raise IndexError
       end.

(** ** [round(x, ndigits)] on a float

    CPython rounds the exact value of the float to [ndigits] decimals,
    a tie going to the even last digit, and returns the float nearest to
    that decimal.  The result is represented here by the decimal itself
    (the number the returned float prints as), in lowest terms. *)

Definition round_half_even (q : Q) : Z :=
  let f := Qfloor q in
  match Qcompare (q - inject_Z f) (1 # 2) with
  | Lt => f
  | Gt => f + 1
  | Eq => if Z.even f then f else f + 1
  end.

Definition pow10 (ndigits : nat) : Q := inject_Z (10 ^ Z.of_nat ndigits).

Definition py_round (x : Q) (ndigits : nat) : Q :=
  Qred (inject_Z (round_half_even (x * pow10 ndigits)) / pow10 ndigits).

(** Round half away from zero, the rule the rounding contract names. *)
Definition round_half_away (q : Q) : Z :=
  match Qcompare q 0 with
  | Lt => - Qfloor (- q + (1 # 2))
  | _ => Qfloor (q + (1 # 2))
  end.

Definition round_away (x : Q) (ndigits : nat) : Q :=
  Qred (inject_Z (round_half_away (x * pow10 ndigits)) / pow10 ndigits).

(** [x % y] on floats: the result has the sign of [y]. *)
Definition py_mod (x y : Q) : Q := (x - y * inject_Z (Qfloor (x / y)))%Q.

(** [math.pi], the double 0x400921FB54442D18. *)
Definition math_pi : Q := 884279719003555 # 281474976710656.

(* ================================================================== *)
(** * [datetime] *)
(* ================================================================== *)

Module Datetime.

(** Microseconds since 0001-01-01T00:00:00 UTC. *)
Definition datetime : Type := Z.

(** A [timedelta], in microseconds. *)
Definition timedelta : Type := Z.

Definition us_per_second : Z := 1000000.
Definition us_per_day : Z := 86400 * us_per_second.

Definition is_leap (year : Z) : bool :=
  (year mod 4 =? 0) && (negb (year mod 100 =? 0) || (year mod 400 =? 0)).

Definition days_before_year (year : Z) : Z :=
  let y := year - 1 in y * 365 + y / 4 - y / 100 + y / 400.

Definition days_in_month (year month : Z) : Z :=
  if month =? 2 then (if is_leap year then 29 else 28)
  else if (month =? 4) || (month =? 6) || (month =? 9) || (month =? 11) then 30
  else 31.

(** Days in the year before the first day of [month]. *)
Definition days_before_month (year month : Z) : Z :=
  fold_left (fun acc m => acc + days_in_month year (Z.of_nat m))
            (seq 1 (Z.to_nat (month - 1))) 0.

Definition ymd2ord (year month day : Z) : Z :=
  days_before_year year + days_before_month year month + day.

(** [datetime(year, month, day, hour, minute, second, microsecond, tzinfo=utc)] *)
Definition make (year month day hour minute second microsecond : Z) : datetime :=
  (((ymd2ord year month day - 1) * 86400 + hour * 3600 + minute * 60 + second)
   * us_per_second + microsecond).

(** [ordinal -> (year, month, day)], after CPython's [_ord2ymd]. *)
Definition ord2ymd (ordinal : Z) : Z * Z * Z :=
  let n := ordinal - 1 in
  let n400 := n / 146097 in
  let n := n mod 146097 in
  let n100 := n / 36524 in
  let n := n mod 36524 in
  let n4 := n / 1461 in
  let n := n mod 1461 in
  let n1 := n / 365 in
  let n := n mod 365 in
  let year := n400 * 400 + 1 + n100 * 100 + n4 * 4 + n1 in
  if (n1 =? 4) || (n100 =? 4) then (year - 1, 12, 31)
  else
    let leapyear := (n1 =? 3) && (negb (n4 =? 24) || (n100 =? 3)) in
    let month := Z.shiftr (n + 50) 5 in
    let preceding :=
      days_before_month (if leapyear then 4 else 1) month in
    if n <? preceding
    then
      let month' := month - 1 in
      let preceding' :=
        preceding - days_in_month (if leapyear then 4 else 1) month' in
      (year, month', n - preceding' + 1)
    else (year, month, n - preceding + 1).

Definition toordinal (dt : datetime) : Z := dt / us_per_day + 1.
Definition year (dt : datetime) : Z := fst (fst (ord2ymd (toordinal dt))).
Definition month (dt : datetime) : Z := snd (fst (ord2ymd (toordinal dt))).
Definition day (dt : datetime) : Z := snd (ord2ymd (toordinal dt)).
Definition hour (dt : datetime) : Z := (dt mod us_per_day) / (3600 * us_per_second).
Definition minute (dt : datetime) : Z := (dt / (60 * us_per_second)) mod 60.
Definition second (dt : datetime) : Z := (dt / us_per_second) mod 60.
Definition microsecond (dt : datetime) : Z := dt mod us_per_second.

(** [timedelta(seconds=s)] for an integer number of seconds. *)
Definition timedelta_seconds (s : Z) : timedelta := s * us_per_second.

(** [dt + td], [a - b], [a <= b], [td.total_seconds()]. *)
Definition add (dt : datetime) (td : timedelta) : datetime := dt + td.
Definition sub (a b : datetime) : timedelta := a - b.
Definition leb (a b : datetime) : bool := a <=? b.
Definition total_seconds (td : timedelta) : Q := inject_Z td / inject_Z us_per_second.

(** The first instant after 9999-12-31T23:59:59.999999: the ordinal of
    9999-12-31 is 3652059. *)
Definition max_instant : Z := 3652059 * us_per_day.

(** The instants that are a [datetime]: years 1 to 9999. *)
Definition in_range (dt : datetime) : bool := (0 <=? dt) && (dt <? max_instant).

(** [timedelta(seconds=s)] with its error: OverflowError when the number
    of days has a magnitude above 999999999. *)
Definition timedelta_of_seconds (s : Z) : result timedelta :=
  let td := s * us_per_second in
  if (-999999999 <=? td / us_per_day) && (td / us_per_day <=? 999999999)
  then Ok td
  else Raise OverflowError.

(** [dt + td] with its error: OverflowError when the result is not a
    [datetime]. *)
Definition add_checked (dt : datetime) (td : timedelta) : result datetime :=
  let r := dt + td in
  if in_range r then Ok r else Raise OverflowError.

(** Decimal digits, zero padded to [width]. *)
Definition digit (n : Z) : ascii := ascii_of_nat (48 + Z.to_nat (n mod 10)).

Fixpoint zero_padded (width : nat) (n : Z) (acc : string) : string :=
  match width with
  | O => acc
  | S w => zero_padded w (n / 10) (String (digit n) acc)
  end.

(** [dt.strftime('%Y-%m-%dT%H:%M:%SZ')], for the years 1000 to 9999. *)
Definition strftime (dt : datetime) : string :=
  zero_padded 4 (year dt)
    (String "-" (zero_padded 2 (month dt)
    (String "-" (zero_padded 2 (day dt)
    (String "T" (zero_padded 2 (hour dt)
    (String ":" (zero_padded 2 (minute dt)
    (String ":" (zero_padded 2 (second dt) "Z")))))))))).

End Datetime.

(* ================================================================== *)
(** * Samples, points and windows *)
(* ================================================================== *)

(** The dict appended to [positions] by [_calculate_positions]. *)
Record Position : Type := mkPosition {
  time : Datetime.datetime;
  elevation : Q;
  azimuth : Q;
  range : Q;
  rangeRate : Q;
  altitude : Q
}.

(** The dict appended to [window_positions]. *)
Record Point : Type := mkPoint {
  pt_time : string;
  pt_azimuth : Q;
  pt_elevation : Q;
  pt_range : Q;
  pt_rangeRate : Q;
  pt_altitude : Q
}.

(** The dict appended to [windows]; [w_end] is the key ['end']. *)
Record Window : Type := mkWindow {
  w_start : string;
  w_end : string;
  maxElevation : Q;
  maxElevationTime : string;
  duration : Q;
  points : list Point
}.

(** [a >= b] and [a > b] on floats. *)
Definition Qgeb (a b : Q) : bool := Qle_bool b a.
Definition Qgtb (a b : Q) : bool := negb (Qle_bool a b).

(* ================================================================== *)
(** * The window segmenter ([_find_visibility_windows])

    The method has the same text in both calculators. *)
(* ================================================================== *)

Module Segmenter.

Import Datetime.

(** The local variables of [_find_visibility_windows]. *)
Record locals : Type := mkLocals {
  windows : list Window;
  in_window : bool;
  window_start : option datetime;
  window_positions : list Point;
  window_max_elevation : Q;
  window_max_elevation_time : option datetime
}.

Definition initial : locals :=
  mkLocals [] false None [] (-90 # 1) None.

(** A method call on a variable that may hold [None]. *)
Definition deref (o : option datetime) : result datetime :=
  match o with
  | Some dt => Ok dt
  | None => Raise AttributeError
  end.

(** The dict appended to [window_positions] for [pos]. *)
Definition point_of (pos : Position) : Point :=
  mkPoint (strftime (time pos))
          (py_round (azimuth pos) 2)
          (py_round (elevation pos) 2)
          (py_round (range pos) 2)
          (py_round (rangeRate pos) 3)
          (py_round (altitude pos) 2).

(** [windows.append({...})] with the current locals and [window_end];
    the same dict is built where a window ends inside the loop and
    after the loop. *)
Definition append_window (st : locals) (window_end : datetime) : result (list Window) :=
  match window_start st with
  | None => Raise TypeError
  | Some ws =>
      let duration := total_seconds (sub window_end ws) in
      wmt <- deref (window_max_elevation_time st) ;;
      Ok (windows st ++
          [mkWindow (strftime ws)
                    (strftime window_end)
                    (py_round (window_max_elevation st) 2)
                    (strftime wmt)
                    (py_round duration 0)
                    (window_positions st)])
  end.

(** One iteration of [for i, pos in enumerate(positions)]. *)
Definition loop_body (positions : list Position) (min_elevation : Q)
    (st : locals) (ipos : nat * Position) : result locals :=
  let '(i, pos) := ipos in
  if Qgeb (elevation pos) min_elevation then
    (* Start of new window *)
    let st1 :=
      if negb (in_window st)
      then mkLocals (windows st) true (Some (time pos)) []
                    (elevation pos) (Some (time pos))
      else st in
    (* Track maximum elevation *)
    let st2 :=
      if Qgtb (elevation pos) (window_max_elevation st1)
      then mkLocals (windows st1) (in_window st1) (window_start st1)
                    (window_positions st1)
                    (elevation pos) (Some (time pos))
      else st1 in
    (* Add position to window *)
    Ok (mkLocals (windows st2) (in_window st2) (window_start st2)
                 (window_positions st2 ++ [point_of pos])
                 (window_max_elevation st2) (window_max_elevation_time st2))
  else
    if in_window st then
      (* End of window *)
      prev <- getitem positions (Z.of_nat i - 1) ;;
      ws <- append_window st (time prev) ;;
      Ok (mkLocals ws false (window_start st) (window_positions st)
                   (window_max_elevation st) (window_max_elevation_time st))
    else Ok st.

(** [_find_visibility_windows(self, positions, times, min_elevation)].
    After a window is appended, [window_positions] is rebound to a new
    list before anything is appended to it again, so the list held by an
    emitted window is never mutated: windows are values here. *)
Definition _find_visibility_windows (positions : list Position)
    (times : list datetime) (min_elevation : Q) : result (list Window) :=
  st <- for_each (loop_body positions min_elevation) (enumerate positions) initial ;;
  (* Handle case where window extends to end of time range *)
  if in_window st && negb (match window_positions st with [] => true | _ => false end)
  then
    last <- getitem positions (-1) ;;
    append_window st (time last)
  else Ok (windows st).

End Segmenter.

(* ================================================================== *)
(** * [round] by the type of the number *)
(* ================================================================== *)

Module Binary64.

Local Open Scope Q_scope.

(** The exponent [e] with [2^e <= a < 2^(e+1)], for [a > 0]. *)
Definition binade (a : Q) : Z :=
  let k := (Z.log2 (Qnum a) - Z.log2 (Zpos (Qden a)))%Z in
  if Qle_bool (Qpower 2 k) a then k else (k - 1)%Z.

(** The binary64 number nearest to [q], a tie going to the even
    significand of 53 bits.  Overflow and subnormal numbers are not
    modelled. *)
Definition fl (q : Q) : Q :=
  match Qcompare q 0 with
  | Eq => 0
  | c => let a := Qabs q in
         let ulp := Qpower 2 (binade a - 52) in
         let m := inject_Z (round_half_even (a / ulp)) * ulp in
         Qred (match c with Lt => - m | _ => m end)
  end.

(** [round(x, ndigits)] on a numpy float64: numpy computes
    [rint(x * 10**ndigits) / 10**ndigits] in binary64, [rint] rounding a
    tie to the even integer.  As for [py_round] the result is
    represented by the decimal it prints as. *)
Definition np_round (x : Q) (ndigits : nat) : Q :=
  Qred (inject_Z (round_half_even (fl (x * pow10 ndigits))) / pow10 ndigits).

(** The type of a number at run time. *)
Inductive float_kind : Type :=
| PythonFloat
| NumpyFloat64.

(** [round(x, ndigits)] dispatches on the type of [x]. *)
Definition round_as (k : float_kind) (x : Q) (ndigits : nat) : Q :=
  match k with
  | PythonFloat => py_round x ndigits
  | NumpyFloat64 => np_round x ndigits
  end.

(** The types of the numbers of a sample. *)
Record FieldKinds : Type := mkFieldKinds {
  azimuth_kind : float_kind;
  elevation_kind : float_kind;
  range_kind : float_kind;
  rangeRate_kind : float_kind;
  altitude_kind : float_kind
}.

(** python-sgp4: azimuth and elevation come from [math.degrees], a Python
    float; the range comes from [np.linalg.norm], and the range rate and
    the altitude are computed from it, numpy float64.  (A range rate set
    to the literal [0.0] is a Python float; both kinds round 0 to 0.) *)
Definition sgp4_kinds : FieldKinds :=
  mkFieldKinds PythonFloat PythonFloat NumpyFloat64 NumpyFloat64 NumpyFloat64.

(** python-skyfield: every number comes from Skyfield, numpy float64. *)
Definition skyfield_kinds : FieldKinds :=
  mkFieldKinds NumpyFloat64 NumpyFloat64 NumpyFloat64 NumpyFloat64 NumpyFloat64.

(** Samples whose numbers are all Python floats. *)
Definition python_kinds : FieldKinds :=
  mkFieldKinds PythonFloat PythonFloat PythonFloat PythonFloat PythonFloat.

End Binary64.

(* ================================================================== *)
(** * The window segmenter on samples of given number types

    [_find_visibility_windows] with [round] dispatching on the types of
    the numbers of the samples; [Segmenter] is the case where all of them
    are Python floats. *)
(* ================================================================== *)

Module TypedSegmenter.

Import Datetime Segmenter Binary64.

Section Kinds.

Variable kinds : FieldKinds.

(** The dict appended to [window_positions] for [pos]. *)
Definition point_of (pos : Position) : Point :=
  mkPoint (strftime (time pos))
          (round_as (azimuth_kind kinds) (azimuth pos) 2)
          (round_as (elevation_kind kinds) (elevation pos) 2)
          (round_as (range_kind kinds) (range pos) 2)
          (round_as (rangeRate_kind kinds) (rangeRate pos) 3)
          (round_as (altitude_kind kinds) (altitude pos) 2).

(** [windows.append({...})]; the duration is a Python float. *)
Definition append_window (st : locals) (window_end : datetime) : result (list Window) :=
  match window_start st with
  | None => Raise TypeError
  | Some ws =>
      let duration := total_seconds (sub window_end ws) in
      wmt <- deref (window_max_elevation_time st) ;;
      Ok (windows st ++
          [mkWindow (strftime ws)
                    (strftime window_end)
                    (round_as (elevation_kind kinds) (window_max_elevation st) 2)
                    (strftime wmt)
                    (py_round duration 0)
                    (window_positions st)])
  end.

(** One iteration of [for i, pos in enumerate(positions)]. *)
Definition loop_body (positions : list Position) (min_elevation : Q)
    (st : locals) (ipos : nat * Position) : result locals :=
  let '(i, pos) := ipos in
  if Qgeb (elevation pos) min_elevation then
    let st1 :=
      if negb (in_window st)
      then mkLocals (windows st) true (Some (time pos)) []
                    (elevation pos) (Some (time pos))
      else st in
    let st2 :=
      if Qgtb (elevation pos) (window_max_elevation st1)
      then mkLocals (windows st1) (in_window st1) (window_start st1)
                    (window_positions st1)
                    (elevation pos) (Some (time pos))
      else st1 in
    Ok (mkLocals (windows st2) (in_window st2) (window_start st2)
                 (window_positions st2 ++ [point_of pos])
                 (window_max_elevation st2) (window_max_elevation_time st2))
  else
    if in_window st then
      prev <- getitem positions (Z.of_nat i - 1) ;;
      ws <- append_window st (time prev) ;;
      Ok (mkLocals ws false (window_start st) (window_positions st)
                   (window_max_elevation st) (window_max_elevation_time st))
    else Ok st.

Definition _find_visibility_windows (positions : list Position)
    (times : list datetime) (min_elevation : Q) : result (list Window) :=
  st <- for_each (loop_body positions min_elevation) (enumerate positions) initial ;;
  if in_window st && negb (match window_positions st with [] => true | _ => false end)
  then
    last <- getitem positions (-1) ;;
    append_window st (time last)
  else Ok (windows st).

End Kinds.

End TypedSegmenter.

(* ================================================================== *)
(** * Runs of visible samples: what the segmenter computes *)
(* ================================================================== *)

Module Runs.

Import Datetime Segmenter.

(** A non-empty block of consecutive samples: the first one and the rest. *)
Definition run : Type := (Position * list Position)%type.

Definition samples_of (r : run) : list Position := fst r :: snd r.
Definition first_of (r : run) : Position := fst r.
Definition last_of (r : run) : Position := last (snd r) (fst r).

(** The sample kept as the peak: replaced only by a strictly higher one. *)
Definition higher (best p : Position) : Position :=
  if Qgtb (elevation p) (elevation best) then p else best.

Definition peak_of (r : run) : Position := fold_left higher (snd r) (fst r).

Definition extend (cur : option run) (p : Position) : run :=
  match cur with
  | None => (p, [])
  | Some r => (fst r, snd r ++ [p])
  end.

(** The maximal runs of samples at or above the threshold, in order;
    [cur] is the run that is open when the scan reaches [ps]. *)
Fixpoint segment (min_elevation : Q) (cur : option run) (ps : list Position)
  : list run :=
  match ps with
  | [] => match cur with Some r => [r] | None => [] end
  | p :: rest =>
      if Qgeb (elevation p) min_elevation
      then segment min_elevation (Some (extend cur p)) rest
      else match cur with
           | Some r => r :: segment min_elevation None rest
           | None => segment min_elevation None rest
           end
  end.

Definition window_of_run (r : run) : Window :=
  mkWindow (strftime (time (first_of r)))
           (strftime (time (last_of r)))
           (py_round (elevation (peak_of r)) 2)
           (strftime (time (peak_of r)))
           (py_round (total_seconds (sub (time (last_of r)) (time (first_of r)))) 0)
           (map point_of (samples_of r)).

End Runs.

Import Datetime Segmenter Runs.

(* ================================================================== *)
(** * The time grid ([_generate_times])

    The method has the same text in both calculators. *)
(* ================================================================== *)

Module TimeGrid.

(** The [while current <= end] loop; [fuel] bounds the number of tests of
    the loop condition, and [None] stands for a loop that is still
    running when the fuel is spent. *)
Fixpoint generate_times_loop (fuel : nat) (times : list datetime)
    (current end_ : datetime) (step_seconds : Z) : option (list datetime) :=
  match fuel with
  | O => None
  | S fuel' =>
      if leb current end_
      then generate_times_loop fuel' (times ++ [current])
             (add current (timedelta_seconds step_seconds)) end_ step_seconds
      else Some times
  end.

Definition _generate_times (fuel : nat) (start end_ : datetime) (step_seconds : Z)
  : option (list datetime) :=
  generate_times_loop fuel [] start end_ step_seconds.

(** The grid in closed form: [start + k * step] for [k < n]. *)
Definition grid (start : datetime) (step_seconds : Z) (n : nat) : list datetime :=
  map (fun k => add start (timedelta_seconds (Z.of_nat k * step_seconds))) (seq 0 n).

End TimeGrid.

Import TimeGrid.

(* ================================================================== *)
(** * Vectors and the [math] module *)
(* ================================================================== *)

Definition vec3 : Type := (Q * Q * Q)%type.

(** The functions of [math] and [numpy] that are not rational. *)
Class MathLib : Type := {
  cos : Q -> Q;
  sin : Q -> Q;
  sqrt : Q -> Q;
  atan2 : Q -> Q -> Q
}.

Section VectorOps.
Context {M : MathLib}.
Local Open Scope Q_scope.

Definition radians (x : Q) : Q := x * (math_pi / 180).
Definition degrees (x : Q) : Q := x * (180 / math_pi).

Definition vsub (a b : vec3) : vec3 :=
  let '(ax, ay, az) := a in
  let '(bx, by_, bz) := b in
  (ax - bx, ay - by_, az - bz).

(** [np.linalg.norm] of a 3-vector. *)
Definition norm (v : vec3) : Q :=
  let '(x, y, z) := v in sqrt (x * x + y * y + z * z).

End VectorOps.

(* ================================================================== *)
(** * python-sgp4: [VisibilityCalculator] *)
(* ================================================================== *)

Module Sgp4.

(** [sgp4.api]: [jday] and the [sgp4] method of a [Satrec], which
    returns [(error_code, position, velocity)] in the TEME frame. *)
Class Sgp4Api : Type := {
  jday : Z -> Z -> Z -> Z -> Z -> Z -> Q * Q;
  Satrec : Type;
  sgp4 : Satrec -> Q -> Q -> Z * vec3 * vec3
}.

Section Calculator.
Context {M : MathLib} {A : Sgp4Api}.
Local Open Scope Q_scope.

(** WGS84 equatorial radius and flattening. *)
Definition EARTH_RADIUS_KM : Q := 6378.137.
Definition EARTH_FLATTENING : Q := 1.0 / 298.257223563.

Definition _geodetic_to_ecef (lat_deg lon_deg alt_km : Q) : vec3 :=
  let lat := radians lat_deg in
  let lon := radians lon_deg in
  let e_squared := 2 * EARTH_FLATTENING - EARTH_FLATTENING ^ 2 in
  let N := EARTH_RADIUS_KM / sqrt (1 - e_squared * sin lat ^ 2) in
  let x := (N + alt_km) * cos lat * cos lon in
  let y := (N + alt_km) * cos lat * sin lon in
  let z := (N * (1 - e_squared) + alt_km) * sin lat in
  (x, y, z).

Definition _gmst (jd fr : Q) : Q :=
  let t := (jd - 2451545.0 + fr) / 36525.0 in
  let gmst_0h :=
    24110.54841 + 8640184.812866 * t + 0.093104 * t * t - 6.2e-6 * t * t * t in
  let gmst_0h := gmst_0h + 86400.0 * 1.00273790935 * fr in
  let gmst_rad := py_mod gmst_0h 86400.0 * (2.0 * math_pi / 86400.0) in
  gmst_rad.

Definition _teme_to_ecef (teme_pos : vec3) (jd fr : Q) : vec3 :=
  let '(p0, p1, p2) := teme_pos in
  let gmst := _gmst jd fr in
  let cos_gmst := cos gmst in
  let sin_gmst := sin gmst in
  let x_ecef := cos_gmst * p0 + sin_gmst * p1 in
  let y_ecef := - sin_gmst * p0 + cos_gmst * p1 in
  let z_ecef := p2 in
  (x_ecef, y_ecef, z_ecef).

Definition _ecef_to_azel (range_vec : vec3) (observer_lat_deg observer_lon_deg : Q)
  : Q * Q :=
  let '(r0, r1, r2) := range_vec in
  let lat := radians observer_lat_deg in
  let lon := radians observer_lon_deg in
  let sin_lat := sin lat in
  let cos_lat := cos lat in
  let sin_lon := sin lon in
  let cos_lon := cos lon in
  let south := sin_lat * cos_lon * r0 + sin_lat * sin_lon * r1 - cos_lat * r2 in
  let east := - sin_lon * r0 + cos_lon * r1 in
  let zenith := cos_lat * cos_lon * r0 + cos_lat * sin_lon * r1 + sin_lat * r2 in
  let azimuth := atan2 east (- south) in
  let azimuth_deg := degrees azimuth in
  let azimuth_deg :=
    if Qgtb 0 azimuth_deg then azimuth_deg + 360.0 else azimuth_deg in
  let range_horizontal := sqrt (south ^ 2 + east ^ 2) in
  let elevation_deg := degrees (atan2 zenith range_horizontal) in
  (azimuth_deg, elevation_deg).

(** [jday(dt.year, dt.month, dt.day, dt.hour, dt.minute, dt.second)] *)
Definition jday_of (dt : datetime) : Q * Q :=
  jday (year dt) (month dt) (day dt) (hour dt) (minute dt) (second dt).

(** The range-rate block of the loop body, for the sample at index [i]. *)
Definition range_rate_at (satellite : Satrec) (observer_ecef : vec3)
    (times : list datetime) (i : nat) (dt : datetime) (range_km : Q) : result Q :=
  if (Z.of_nat i <? Z.of_nat (List.length times) - 1)%Z then
    (* Use next position to calculate rate *)
    dt_next <- getitem times (Z.of_nat i + 1) ;;
    let '(jd_next, fr_next) := jday_of dt_next in
    let '(error_code_next, sat_pos_next_teme, _) := sgp4 satellite jd_next fr_next in
    if (error_code_next =? 0)%Z then
      let sat_pos_next_ecef := _teme_to_ecef sat_pos_next_teme jd_next fr_next in
      let range_next := norm (vsub sat_pos_next_ecef observer_ecef) in
      let time_diff := total_seconds (sub dt_next dt) in
      Ok (if Qgtb time_diff 0 then (range_next - range_km) / time_diff else 0.0)
    else Ok 0.0
  else Ok 0.0.

(** One iteration of [for i, dt in enumerate(times)]; [positions] is the
    list built so far. *)
Definition loop_body (satellite : Satrec) (observer_ecef : vec3)
    (times : list datetime) (observer_lat observer_lon : Q)
    (positions : list Position) (idt : nat * datetime) : result (list Position) :=
  let '(i, dt) := idt in
  let '(jd, fr) := jday_of dt in
  let '(error_code, sat_pos_teme, sat_vel_teme) := sgp4 satellite jd fr in
  if negb (error_code =? 0)%Z then
    (* Skip this point if SGP4 fails *)
    Ok positions
  else
    let sat_pos_ecef := _teme_to_ecef sat_pos_teme jd fr in
    let range_vec := vsub sat_pos_ecef observer_ecef in
    let range_km := norm range_vec in
    let '(az, el) := _ecef_to_azel range_vec observer_lat observer_lon in
    range_rate <- range_rate_at satellite observer_ecef times i dt range_km ;;
    let sat_altitude := norm sat_pos_ecef - EARTH_RADIUS_KM in
    Ok (positions ++ [mkPosition dt el az range_km range_rate sat_altitude]).

Definition _calculate_positions (satellite : Satrec) (observer_ecef : vec3)
    (times : list datetime) (observer_lat observer_lon : Q)
  : result (list Position) :=
  for_each (loop_body satellite observer_ecef times observer_lat observer_lon)
           (enumerate times) [].

(** [calculate], from the parsed test case on: the value stored under
    ['visibilityWindows'].  [None] stands for a time grid loop that is
    still running when the fuel is spent. *)
Definition calculate (fuel : nat) (satellite : Satrec)
    (latitude longitude altitude_m : Q) (start_time end_time : datetime)
    (step_seconds : Z) (min_elevation : Q) : option (result (list Window)) :=
  match _generate_times fuel start_time end_time step_seconds with
  | None => None
  | Some times =>
      let observer_ecef := _geodetic_to_ecef latitude longitude (altitude_m / 1000.0) in
      Some (positions <- _calculate_positions satellite observer_ecef times
                                              latitude longitude ;;
            Segmenter._find_visibility_windows positions times min_elevation)
  end.

End Calculator.

End Sgp4.

(* ================================================================== *)
(** * python-skyfield: [VisibilityCalculator] *)
(* ================================================================== *)

Module Skyfield.

(** The Skyfield objects the calculator uses: [ts.utc], the positions
    returned by [(satellite - observer).at(t)] and [satellite.at(t)],
    [altaz()] in degrees and kilometres, and [distance().km].  A position
    also carries [message], the error text of the propagation that
    produced it, or [None] when the propagation succeeded. *)
Class SkyfieldApi : Type := {
  Time : Type;
  ts_utc : Z -> Z -> Z -> Z -> Z -> Z -> Time;
  ICRF : Type;
  difference_at : Time -> ICRF;
  satellite_at : Time -> ICRF;
  altaz : ICRF -> Q * Q * Q;
  distance_km : ICRF -> Q;
  message : ICRF -> option string
}.

Section Calculator.
Context {S : SkyfieldApi}.
Local Open Scope Q_scope.

(** One iteration of [for dt in times]. *)
Definition loop_body (positions : list Position) (dt : datetime) : list Position :=
  let t := ts_utc (year dt) (month dt) (day dt) (hour dt) (minute dt) (second dt) in
  let topocentric := difference_at t in
  let '(alt, az, distance) := altaz topocentric in
  let t_next :=
    ts_utc (year dt) (month dt) (day dt) (hour dt) (minute dt) (second dt + 1) in
  let topocentric_next := difference_at t_next in
  let distance_next := distance_km topocentric_next in
  let range_rate := distance_next - distance in
  let geocentric := satellite_at t in
  let sat_altitude := distance_km geocentric - 6371.0 in
  positions ++ [mkPosition dt alt az distance range_rate sat_altitude].

Definition _calculate_positions (times : list datetime) : list Position :=
  fold_left loop_body times [].

(** The error text of the propagation at [dt]: the [message] of
    [satellite.at(t)].  The calculator never reads it. *)
Definition propagation_message (dt : datetime) : option string :=
  message (satellite_at
             (ts_utc (year dt) (month dt) (day dt) (hour dt) (minute dt) (second dt))).

(** [calculate], from the parsed test case on: the value stored under
    ['visibilityWindows']. *)
Definition calculate (fuel : nat) (start_time end_time : datetime)
    (step_seconds : Z) (min_elevation : Q) : option (result (list Window)) :=
  match _generate_times fuel start_time end_time step_seconds with
  | None => None
  | Some times =>
      Some (Segmenter._find_visibility_windows (_calculate_positions times)
                                               times min_elevation)
  end.

End Calculator.

End Skyfield.

(* ================================================================== *)
(** * The time grid and the calculators with the limits of [datetime] *)
(* ================================================================== *)

Module Bounded.

(** The loop of [_generate_times] where [timedelta(seconds=step_seconds)]
    and [current += ...] raise OverflowError as in Python.  [None] stands
    for a loop that is still running when the fuel is spent. *)
Fixpoint generate_times_loop (fuel : nat) (times : list datetime)
    (current end_ : datetime) (step_seconds : Z)
  : option (result (list datetime)) :=
  match fuel with
  | O => None
  | S fuel' =>
      if leb current end_
      then match (td <- timedelta_of_seconds step_seconds ;; add_checked current td) with
           | Ok next =>
               generate_times_loop fuel' (times ++ [current]) next end_ step_seconds
           | Raise e => Some (Raise e)
           end
      else Some (Ok times)
  end.

Definition _generate_times (fuel : nat) (start end_ : datetime) (step_seconds : Z)
  : option (result (list datetime)) :=
  generate_times_loop fuel [] start end_ step_seconds.

Section Calculate.
Context {M : MathLib} {A : Sgp4.Sgp4Api} {S : Skyfield.SkyfieldApi}.
Local Open Scope Q_scope.

(** [calculate] of python-sgp4, from the parsed test case on. *)
Definition sgp4_calculate (fuel : nat) (satellite : Sgp4.Satrec)
    (latitude longitude altitude_m : Q) (start_time end_time : datetime)
    (step_seconds : Z) (min_elevation : Q) : option (result (list Window)) :=
  match _generate_times fuel start_time end_time step_seconds with
  | None => None
  | Some generated =>
      Some (times <- generated ;;
            let observer_ecef :=
              Sgp4._geodetic_to_ecef latitude longitude (altitude_m / 1000.0) in
            positions <- Sgp4._calculate_positions satellite observer_ecef times
                                                   latitude longitude ;;
            Segmenter._find_visibility_windows positions times min_elevation)
  end.

(** [calculate] of python-skyfield, from the parsed test case on. *)
Definition skyfield_calculate (fuel : nat) (start_time end_time : datetime)
    (step_seconds : Z) (min_elevation : Q) : option (result (list Window)) :=
  match _generate_times fuel start_time end_time step_seconds with
  | None => None
  | Some generated =>
      Some (times <- generated ;;
            Segmenter._find_visibility_windows
              (Skyfield._calculate_positions times) times min_elevation)
  end.

End Calculate.

End Bounded.

(* ================================================================== *)
(** * Scripted collaborators

    Deterministic stand-ins for the external collaborators, to run the
    calculators on concrete inputs. *)
(* ================================================================== *)

Module Scripted.

Local Open Scope Q_scope.

(** Low-order rational approximations of the [math] functions. *)
Definition scripted_math : MathLib := {|
  cos := fun x => 1 - x * x / 2;
  sin := fun x => x - x * x * x / 6;
  sqrt := fun x => inject_Z (Z.sqrt (Qfloor (x * 1000000))) / 1000;
  atan2 := fun y x => y / (1 + Qabs x + Qabs y)
|}.

(** [jday] as in [sgp4.functions]. *)
Definition scripted_jday (year mon day hr minute sec : Z) : Q * Q :=
  (inject_Z (367 * year - (7 * (year + (mon + 9) / 12)) / 4 + (275 * mon) / 9 + day)
   + 1721013.5,
   inject_Z (sec + minute * 60 + hr * 3600) / 86400).

(** A satellite is the list of day fractions at which its propagation
    fails with error code 1; elsewhere it moves along the x axis at
    1 km/s. *)
Definition scripted_sgp4 (failing : list Q) (jd fr : Q) : Z * vec3 * vec3 :=
  if existsb (Qeq_bool fr) failing
  then (1%Z, (0, 0, 0), (0, 0, 0))
  else (0%Z, (7000 + 86400 * fr, 0, 0), (1, 0, 0)).

Definition scripted_sgp4_api : Sgp4.Sgp4Api := {|
  Sgp4.jday := scripted_jday;
  Sgp4.Satrec := list Q;
  Sgp4.sgp4 := scripted_sgp4
|}.

(** A Skyfield time is the seconds field it was built from; a position
    is its distance, which grows by 1 km per second from 7000 km. *)
Definition scripted_skyfield : Skyfield.SkyfieldApi := {|
  Skyfield.Time := Z;
  Skyfield.ts_utc := fun year month day hour minute second => second;
  Skyfield.ICRF := Q;
  Skyfield.difference_at := fun t => 7000 + inject_Z t;
  Skyfield.satellite_at := fun t => 7000 + inject_Z t;
  Skyfield.altaz := fun p => (45, 180, p);
  Skyfield.distance_km := fun p => p;
  Skyfield.message := fun p => None
|}.

(** A Skyfield satellite whose propagation fails in the minute 1 of each
    hour: a time is [60 * minute + second], a position is its distance
    and its error text. *)
Definition scripted_skyfield_failing : Skyfield.SkyfieldApi := {|
  Skyfield.Time := Z;
  Skyfield.ts_utc := fun year month day hour minute second =>
                       (60 * minute + second)%Z;
  Skyfield.ICRF := Q * option string;
  Skyfield.difference_at :=
    fun t => (7000 + inject_Z t,
              if (t / 60 =? 1)%Z then Some "mean motion is out of range"%string
              else None);
  Skyfield.satellite_at :=
    fun t => (7000 + inject_Z t,
              if (t / 60 =? 1)%Z then Some "mean motion is out of range"%string
              else None);
  Skyfield.altaz := fun p => (45, 180, fst p);
  Skyfield.distance_km := fun p => fst p;
  Skyfield.message := fun p => snd p
|}.

End Scripted.

(* ================================================================== *)
(** * Properties of the built-ins *)
(* ================================================================== *)

Lemma getitem_nat {X : Type} (xs : list X) (i : nat) (x : X) :
  nth_error xs i = Some x -> getitem xs (Z.of_nat i) = Ok x.
Proof.
  intros H. unfold getitem.
  assert (Hlt : (i < List.length xs)%nat)
    by (apply nth_error_Some; congruence).
  destruct (Z.ltb_spec (Z.of_nat i) 0) as [Hneg | _]; [lia|].
  destruct (Z.ltb_spec (Z.of_nat i) 0) as [Hneg | _]; [lia|].
  destruct (Z.leb_spec (Z.of_nat (List.length xs)) (Z.of_nat i)) as [Hge | _]; [lia|].
  cbn [orb]. rewrite Nat2Z.id, H. reflexivity.
Qed.

Lemma getitem_prev {X : Type} (front : list X) (x : X) (back : list X) :
  getitem ((front ++ [x]) ++ back) (Z.of_nat (List.length (front ++ [x])) - 1) = Ok x.
Proof.
  replace (Z.of_nat (List.length (front ++ [x])) - 1)
    with (Z.of_nat (List.length front))
    by (rewrite length_app; cbn [List.length]; lia).
  apply getitem_nat.
  rewrite <- app_assoc. rewrite nth_error_app2 by lia.
  rewrite Nat.sub_diag. reflexivity.
Qed.

Lemma getitem_last {X : Type} (front : list X) (x : X) :
  getitem (front ++ [x]) (-1) = Ok x.
Proof.
  unfold getitem. cbn [Z.ltb Z.compare].
  rewrite length_app. cbn [List.length].
  set (n := List.length front).
  destruct (Z.ltb_spec (-1 + Z.of_nat (n + 1)) 0) as [Hneg | _]; [lia|].
  destruct (Z.leb_spec (Z.of_nat (n + 1)) (-1 + Z.of_nat (n + 1))) as [Hge | _]; [lia|].
  cbn [orb].
  replace (Z.to_nat (-1 + Z.of_nat (n + 1))) with n by lia.
  rewrite nth_error_app2 by (subst n; lia).
  subst n. rewrite Nat.sub_diag. reflexivity.
Qed.

Lemma Qgeb_true (a b : Q) : Qgeb a b = true <-> (b <= a)%Q.
Proof. unfold Qgeb. apply Qle_bool_iff. Qed.

Lemma Qgeb_false (a b : Q) : Qgeb a b = false <-> (a < b)%Q.
Proof.
  unfold Qgeb. split; intros H.
  - apply Qnot_le_lt. intros Hle. apply Qle_bool_iff in Hle. congruence.
  - destruct (Qle_bool b a) eqn:E; [|reflexivity].
    apply Qle_bool_iff in E. exfalso. exact (Qlt_not_le _ _ H E).
Qed.

Lemma Qgtb_true (a b : Q) : Qgtb a b = true <-> (b < a)%Q.
Proof.
  unfold Qgtb. rewrite negb_true_iff. exact (Qgeb_false b a).
Qed.

Lemma Qgtb_false (a b : Q) : Qgtb a b = false <-> (a <= b)%Q.
Proof.
  unfold Qgtb. rewrite negb_false_iff. exact (Qgeb_true b a).
Qed.

(* ================================================================== *)
(** * The segmenter computes the windows of the maximal runs *)
(* ================================================================== *)

Section SegmenterRefinement.

Variable positions : list Position.
Variable min_elevation : Q.

(** What the locals hold when the scan has consumed [done] and [cur] is
    the open run. *)
Definition locals_track (st : locals) (cur : option run) (done : list Position)
  : Prop :=
  match cur with
  | None => in_window st = false
  | Some r =>
      in_window st = true
      /\ window_start st = Some (time (first_of r))
      /\ window_positions st = map point_of (samples_of r)
      /\ window_max_elevation st = elevation (peak_of r)
      /\ window_max_elevation_time st = Some (time (peak_of r))
      /\ exists front, done = front ++ [last_of r]
  end.

(** The code after the loop. *)
Definition after_loop (st : locals) : result (list Window) :=
  if in_window st && negb (match window_positions st with [] => true | _ => false end)
  then
    last <- getitem positions (-1) ;;
    append_window st (time last)
  else Ok (windows st).

Lemma last_of_extend (cur : option run) (p : Position) :
  last_of (extend cur p) = p.
Proof.
  destruct cur as [[f rest]|]; unfold last_of, extend; cbn [fst snd].
  - apply last_last.
  - reflexivity.
Qed.

Lemma peak_of_extend (r : run) (p : Position) :
  peak_of (extend (Some r) p) = higher (peak_of r) p.
Proof.
  unfold peak_of, extend. cbn [fst snd].
  rewrite fold_left_app. reflexivity.
Qed.

Lemma samples_of_extend (r : run) (p : Position) :
  samples_of (extend (Some r) p) = samples_of r ++ [p].
Proof. reflexivity. Qed.

Lemma append_window_tracked (st : locals) (r : run) (done : list Position) :
  locals_track st (Some r) done ->
  append_window st (time (last_of r)) = Ok (windows st ++ [window_of_run r]).
Proof.
  intros (_ & Hs & Hp & Hm & Ht & _).
  unfold append_window, window_of_run.
  rewrite Hs, Ht, Hp, Hm. reflexivity.
Qed.

Lemma loop_refines (todo : list Position) :
  forall (done : list Position) (st : locals) (cur : option run),
    positions = done ++ todo ->
    locals_track st cur done ->
    (st' <- for_each (loop_body positions min_elevation)
                     (enumerate_from (List.length done) todo) st ;;
     after_loop st')
    = Ok (windows st ++ map window_of_run (segment min_elevation cur todo)).
Proof.
  induction todo as [|p todo IH]; intros done st cur Hpos Htrack.
  - cbn [enumerate_from for_each bind segment].
    rewrite app_nil_r in Hpos. unfold after_loop.
    destruct cur as [r|]; cbn [locals_track] in Htrack.
    + destruct Htrack as (Hin & Hs & Hp & Hm & Ht & front & Hdone).
      rewrite Hin, Hp. cbn [samples_of map andb negb].
      rewrite Hpos, Hdone, getitem_last. cbn [bind map].
      apply append_window_tracked with (done := done).
      cbn [locals_track]. repeat split; try assumption. now exists front.
    + rewrite Htrack. cbn [andb map]. now rewrite app_nil_r.
  - cbn [enumerate_from for_each segment].
    assert (Hnext : positions = (done ++ [p]) ++ todo)
      by (rewrite <- app_assoc; exact Hpos).
    assert (Hlen : Datatypes.S (List.length done) = List.length (done ++ [p]))
      by (rewrite length_app; cbn [List.length]; lia).
    unfold loop_body at 1.
    destruct (Qgeb (elevation p) min_elevation) eqn:Hvis.
    + (* the sample is visible *)
      cbn [bind]. rewrite Hlen.
      destruct cur as [r|]; cbn [locals_track] in Htrack.
      * destruct Htrack as (Hin & Hs & Hp & Hm & Ht & front & Hdone).
        rewrite Hin. cbn [negb].
        destruct (Qgtb (elevation p) (window_max_elevation st)) eqn:Hhigher;
          (rewrite (IH _ _ (Some (extend (Some r) p)) Hnext); [reflexivity|]);
          cbn [locals_track]; rewrite peak_of_extend, samples_of_extend, map_app;
          unfold higher; rewrite <- Hm, Hhigher;
          cbn [in_window window_start window_positions
               window_max_elevation window_max_elevation_time windows];
          (repeat split; try assumption; try (now rewrite Hp));
          exists done; now rewrite last_of_extend.
      * rewrite Htrack. cbn [negb window_max_elevation].
        assert (Hself : Qgtb (elevation p) (elevation p) = false)
          by (apply Qgtb_false; apply Qle_refl).
        rewrite Hself.
        rewrite (IH _ _ (Some (extend None p)) Hnext); [reflexivity|].
        cbn [locals_track extend in_window window_start window_positions
             window_max_elevation window_max_elevation_time].
        repeat split. exists done. reflexivity.
    + (* the sample is below the threshold *)
      destruct cur as [r|]; cbn [locals_track] in Htrack.
      * pose proof Htrack as Htrack'.
        destruct Htrack as (Hin & Hs & Hp & Hm & Ht & front & Hdone).
        rewrite Hin.
        assert (Hprev : getitem positions (Z.of_nat (List.length done) - 1)
                        = Ok (last_of r)).
        { rewrite Hpos, Hdone. apply getitem_prev. }
        rewrite Hprev. cbn [bind].
        rewrite (append_window_tracked st r done Htrack'). cbn [bind].
        rewrite Hlen.
        rewrite (IH _ _ None Hnext); [| cbn [locals_track in_window]; reflexivity].
        cbn [windows map]. now rewrite <- app_assoc.
      * rewrite Htrack. cbn [bind]. rewrite Hlen.
        rewrite (IH _ _ None Hnext); [reflexivity | exact Htrack].
Qed.

End SegmenterRefinement.

(** [_find_visibility_windows] never raises, and returns one window per
    maximal run of visible samples. *)
Lemma find_visibility_windows_runs (positions : list Position)
    (times : list datetime) (min_elevation : Q) :
  _find_visibility_windows positions times min_elevation
  = Ok (map window_of_run (segment min_elevation None positions)).
Proof.
  unfold _find_visibility_windows, enumerate.
  exact (loop_refines positions min_elevation positions [] initial None
           eq_refl eq_refl).
Qed.

(* ================================================================== *)
(** * Properties of the runs *)
(* ================================================================== *)

Definition open_samples (cur : option run) : list Position :=
  match cur with
  | Some r => samples_of r
  | None => []
  end.

Lemma open_samples_extend (cur : option run) (p : Position) :
  samples_of (extend cur p) = open_samples cur ++ [p].
Proof. destruct cur as [r|]; reflexivity. Qed.

(** Every run is a block of consecutive samples, all of them visible. *)
Lemma segment_blocks (min_elevation : Q) (ps : list Position) :
  forall (cur : option run) (r : run),
    Forall (fun s => (min_elevation <= elevation s)%Q) (open_samples cur) ->
    In r (segment min_elevation cur ps) ->
    (exists front back, open_samples cur ++ ps = front ++ samples_of r ++ back)
    /\ Forall (fun s => (min_elevation <= elevation s)%Q) (samples_of r).
Proof.
  induction ps as [|p ps IH]; intros cur r Hcur Hin; cbn [segment] in Hin.
  - destruct cur as [r0|]; cbn [In] in Hin; [|contradiction].
    destruct Hin as [<- | []]. split; [|exact Hcur].
    exists [], []. cbn [open_samples app]. reflexivity.
  - destruct (Qgeb (elevation p) min_elevation) eqn:Hvis.
    + apply Qgeb_true in Hvis.
      destruct (IH (Some (extend cur p)) r) as [(front & back & Heq) Hall].
      * cbn [open_samples]. rewrite open_samples_extend.
        apply Forall_app. split; [exact Hcur | now constructor].
      * exact Hin.
      * split; [|exact Hall]. exists front, back.
        cbn [open_samples] in Heq. rewrite open_samples_extend in Heq.
        rewrite <- Heq, <- app_assoc. reflexivity.
    + assert (Hrest : In r (segment min_elevation None ps) ->
                      (exists front back,
                          open_samples cur ++ p :: ps = front ++ samples_of r ++ back)
                      /\ Forall (fun s => (min_elevation <= elevation s)%Q)
                                (samples_of r)).
      { intros Hin'.
        destruct (IH None r (Forall_nil _) Hin') as [(front & back & Heq) Hall].
        split; [|exact Hall].
        exists (open_samples cur ++ p :: front), back.
        cbn [open_samples app] in Heq. rewrite Heq, <- app_assoc. reflexivity. }
      destruct cur as [r0|]; [|exact (Hrest Hin)].
      destruct Hin as [<- | Hin]; [|exact (Hrest Hin)].
      split; [|exact Hcur].
      exists [], (p :: ps). reflexivity.
Qed.

(** A visible sample followed by a sample below the threshold is the last
    sample of a run. *)
Lemma segment_closes (min_elevation : Q) (si sj : Position) (back : list Position) :
  (min_elevation <= elevation si)%Q ->
  (elevation sj < min_elevation)%Q ->
  forall (front : list Position) (cur : option run),
  exists (r : run) (skipped : list Position),
    In r (segment min_elevation cur (front ++ si :: sj :: back))
    /\ open_samples cur ++ front ++ [si] = skipped ++ samples_of r
    /\ last_of r = si.
Proof.
  intros Hi Hj. apply Qgeb_true in Hi. apply Qgeb_false in Hj.
  induction front as [|p front IH]; intros cur.
  - exists (extend cur si), [].
    cbn [app segment]. rewrite Hi, Hj.
    split; [left; reflexivity|].
    split; [now rewrite open_samples_extend | apply last_of_extend].
  - cbn [app segment].
    destruct (Qgeb (elevation p) min_elevation).
    + destruct (IH (Some (extend cur p))) as (r & skipped & Hin & Heq & Hlast).
      exists r, skipped. split; [exact Hin|]. split; [|exact Hlast].
      cbn [open_samples] in Heq. rewrite open_samples_extend in Heq.
      rewrite <- Heq, <- app_assoc. reflexivity.
    + destruct (IH None) as (r & skipped & Hin & Heq & Hlast).
      exists r, (open_samples cur ++ p :: skipped).
      split; [destruct cur; [right|]; exact Hin|].
      split; [|exact Hlast].
      cbn [open_samples app] in Heq. rewrite <- app_assoc. cbn [app].
      now rewrite Heq.
Qed.

(** The peak of a run is its first sample of maximal elevation. *)
Lemma peak_first_maximum (f : Position) (rest : list Position) :
  exists before after,
    f :: rest = before ++ fold_left higher rest f :: after
    /\ Forall (fun s => (elevation s < elevation (fold_left higher rest f))%Q) before
    /\ Forall (fun s => (elevation s <= elevation (fold_left higher rest f))%Q) after.
Proof.
  induction rest as [|p rest IH] using rev_ind.
  - exists [], []. cbn [fold_left app]. repeat split; constructor.
  - destruct IH as (before & after & Heq & Hb & Ha).
    rewrite fold_left_app. cbn [fold_left].
    set (pk := fold_left higher rest f) in *.
    unfold higher. destruct (Qgtb (elevation p) (elevation pk)) eqn:Hhigher.
    + apply Qgtb_true in Hhigher.
      exists (f :: rest), []. split; [reflexivity|]. split; [|constructor].
      rewrite Heq. apply Forall_app. split.
      * eapply Forall_impl; [|exact Hb]. cbn beta. intros s Hs.
        eapply Qlt_trans; eassumption.
      * constructor; [exact Hhigher|].
        eapply Forall_impl; [|exact Ha]. cbn beta. intros s Hs.
        eapply Qle_lt_trans; eassumption.
    + apply Qgtb_false in Hhigher.
      exists before, (after ++ [p]). split.
      * change (f :: rest ++ [p]) with ((f :: rest) ++ [p]).
        rewrite Heq, <- app_assoc. reflexivity.
      * split; [exact Hb|]. apply Forall_app. split; [exact Ha|].
        constructor; [exact Hhigher | constructor].
Qed.

Lemma round_half_even_comp (x y : Q) :
  (x == y)%Q -> round_half_even x = round_half_even y.
Proof.
  intros H. unfold round_half_even.
  rewrite (Qfloor_comp _ _ H).
  assert (Hc : Qcompare (x - inject_Z (Qfloor y)) (1 # 2)
               = Qcompare (y - inject_Z (Qfloor y)) (1 # 2))
    by (now rewrite H).
  now rewrite Hc.
Qed.

Lemma py_round_whole (x : Q) : (py_round x 0 == inject_Z (round_half_even x))%Q.
Proof.
  unfold py_round, pow10. rewrite Qred_correct.
  change (inject_Z (10 ^ Z.of_nat 0)) with 1%Q.
  rewrite (round_half_even_comp (x * 1) x) by apply Qmult_1_r.
  field.
Qed.

(* ================================================================== *)
(** * The window segmenter: claims *)
(* ================================================================== *)

(** The synthetic scenario: elevations 5, 12, 20, 15, 8, 3, 11, 9 at
    60-second steps from 2024-01-01T00:00:00Z.  [other k] gives the
    azimuth, range, range rate and altitude of sample [k]. *)
Definition scenario_sample (other : nat -> Q * Q * Q * Q) (k : nat) (el : Z)
  : Position :=
  let '(az, rg, rr, alt) := other k in
  mkPosition (add (make 2024 1 1 0 0 0 0) (timedelta_seconds (60 * Z.of_nat k)))
             (inject_Z el) az rg rr alt.

Definition scenario (other : nat -> Q * Q * Q * Q) : list Position :=
  map (fun ke => scenario_sample other (fst ke) (snd ke))
      (enumerate [5; 12; 20; 15; 8; 3; 11; 9]).

(** C1. On the scenario with threshold 10 the segmenter returns exactly
    two windows: 00:01:00Z to 00:03:00Z with peak 20 at 00:02:00Z,
    duration 120 and the three points of elevations 12, 20, 15; and
    00:06:00Z to 00:06:00Z with peak 11, duration 0 and one point. *)
Theorem C1_concrete_scenario (other : nat -> Q * Q * Q * Q) (times : list datetime) :
  exists pts1 pts2,
    _find_visibility_windows (scenario other) times 10
    = Ok [ mkWindow "2024-01-01T00:01:00Z" "2024-01-01T00:03:00Z" 20
                    "2024-01-01T00:02:00Z" 120 pts1;
           mkWindow "2024-01-01T00:06:00Z" "2024-01-01T00:06:00Z" 11
                    "2024-01-01T00:06:00Z" 0 pts2 ]
    /\ map pt_elevation pts1 = [12; 20; 15]%Q
    /\ map pt_time pts1
       = ["2024-01-01T00:01:00Z"; "2024-01-01T00:02:00Z"; "2024-01-01T00:03:00Z"]%string
    /\ map pt_elevation pts2 = [11]%Q
    /\ map pt_time pts2 = ["2024-01-01T00:06:00Z"]%string.
Proof.
  rewrite find_visibility_windows_runs.
  unfold scenario, enumerate. cbn [enumerate_from map fst snd].
  unfold scenario_sample.
  destruct (other 0%nat) as [[[a0 g0] r0] h0].
  destruct (other 1%nat) as [[[a1 g1] r1] h1].
  destruct (other 2%nat) as [[[a2 g2] r2] h2].
  destruct (other 3%nat) as [[[a3 g3] r3] h3].
  destruct (other 4%nat) as [[[a4 g4] r4] h4].
  destruct (other 5%nat) as [[[a5 g5] r5] h5].
  destruct (other 6%nat) as [[[a6 g6] r6] h6].
  destruct (other 7%nat) as [[[a7 g7] r7] h7].
  eexists. eexists.
  split; [|split; [|split; [|split]]].
  - cbv [segment Qgeb Qle_bool elevation inject_Z Qnum Qden Z.leb Z.mul
         Z.compare Pos.mul Pos.compare Pos.compare_cont extend fst snd app map
         window_of_run first_of last_of peak_of last fold_left higher Qgtb negb
         samples_of].
    repeat f_equal; vm_compute; reflexivity.
  - vm_compute. reflexivity.
  - vm_compute. reflexivity.
  - vm_compute. reflexivity.
  - vm_compute. reflexivity.
Qed.

(** C2. If sample [i] is at or above the threshold and sample [i+1] is
    below it, a window is emitted whose points are a block of samples
    ending with sample [i]; its end is the time of sample [i] (not of
    sample [i+1]), and its duration is end minus start rounded to whole
    seconds. *)
Theorem C2_window_closes_at_last_visible_sample
    (positions : list Position) (times : list datetime) (min_elevation : Q)
    (i : nat) (si sj : Position) :
  nth_error positions i = Some si ->
  nth_error positions (Datatypes.S i) = Some sj ->
  (min_elevation <= elevation si)%Q ->
  (elevation sj < min_elevation)%Q ->
  exists ws w skipped block s0,
    _find_visibility_windows positions times min_elevation = Ok ws
    /\ In w ws
    /\ firstn (Datatypes.S i) positions = skipped ++ block
    /\ hd_error block = Some s0
    /\ last block s0 = si
    /\ points w = map point_of block
    /\ w_start w = strftime (time s0)
    /\ w_end w = strftime (time si)
    /\ (strftime (time sj) <> strftime (time si) -> w_end w <> strftime (time sj))
    /\ duration w = py_round (total_seconds (sub (time si) (time s0))) 0
    /\ (duration w
        == inject_Z (round_half_even (total_seconds (sub (time si) (time s0)))))%Q.
Proof.
  intros Hi Hj Hvis Hbelow.
  destruct (nth_error_split positions i Hi) as (front & tail & Hpos & Hlen).
  assert (Htail : exists back, tail = sj :: back).
  { rewrite Hpos in Hj.
    rewrite nth_error_app2 in Hj by lia.
    replace (Datatypes.S i - List.length front)%nat with 1%nat in Hj by lia.
    destruct tail as [|x back]; cbn in Hj; [discriminate|].
    exists back. congruence. }
  destruct Htail as (back & ->).
  destruct (segment_closes min_elevation si sj back Hvis Hbelow front None)
    as (r & skipped & Hin & Heq & Hlast).
  cbn [open_samples app] in Heq.
  exists (map window_of_run (segment min_elevation None positions)),
         (window_of_run r), skipped, (samples_of r), (first_of r).
  split; [apply find_visibility_windows_runs|].
  split; [apply in_map; rewrite Hpos; exact Hin|].
  split.
  { rewrite Hpos.
    replace (Datatypes.S i) with (List.length (front ++ [si]) + 0)%nat
      by (rewrite length_app; cbn [List.length]; lia).
    change (front ++ si :: sj :: back) with (front ++ [si] ++ sj :: back).
    rewrite app_assoc, firstn_app_2. cbn [firstn]. rewrite app_nil_r. exact Heq. }
  split; [reflexivity|].
  assert (Hlast' : last (samples_of r) (first_of r) = si).
  { unfold samples_of, first_of. unfold last_of in Hlast.
    destruct r as [f rest]. cbn [fst snd] in *.
    destruct rest as [|x rest]; [exact Hlast|].
    rewrite <- Hlast. cbn [last]. reflexivity. }
  split; [exact Hlast'|].
  unfold window_of_run. cbn [points w_start w_end duration]. rewrite Hlast.
  repeat split.
  - intros Hne Heq'. apply Hne. symmetry. exact Heq'.
  - apply py_round_whole.
Qed.

(** A run of the scenario for the witness of C2. *)
Definition plain_other (k : nat) : Q * Q * Q * Q := (0, 0, 0, 0)%Q.

Lemma C2_witness :
  exists ws w skipped block s0,
    _find_visibility_windows (scenario plain_other) [] 10 = Ok ws
    /\ In w ws
    /\ firstn 4 (scenario plain_other) = skipped ++ block
    /\ hd_error block = Some s0
    /\ last block s0 = scenario_sample plain_other 3 15
    /\ points w = map point_of block
    /\ w_start w = strftime (time s0)
    /\ w_end w = strftime (time (scenario_sample plain_other 3 15))
    /\ (strftime (time (scenario_sample plain_other 4 8))
        <> strftime (time (scenario_sample plain_other 3 15))
        -> w_end w <> strftime (time (scenario_sample plain_other 4 8)))
    /\ duration w
       = py_round (total_seconds (sub (time (scenario_sample plain_other 3 15))
                                      (time s0))) 0
    /\ (duration w
        == inject_Z (round_half_even
                       (total_seconds (sub (time (scenario_sample plain_other 3 15))
                                           (time s0)))))%Q.
Proof.
  apply (C2_window_closes_at_last_visible_sample
           (scenario plain_other) [] 10 3
           (scenario_sample plain_other 3 15) (scenario_sample plain_other 4 8)).
  - reflexivity.
  - reflexivity.
  - vm_compute. discriminate.
  - vm_compute. reflexivity.
Defined.




(** A sample whose azimuth 0.125 and range rate 0.0625 are exactly half
    way between two roundings. *)
Definition tie_sample : Position :=
  mkPosition (make 2024 1 1 0 0 0 0) 45 0.125 0 0.0625 0.


(** ** Rounding of the emitted points *)

Lemma inject_Z_succ (z : Z) : (inject_Z (z + 1) == inject_Z z + 1)%Q.
Proof. rewrite inject_Z_plus. reflexivity. Qed.

Lemma round_half_even_nearest (q : Q) :
  (Qabs (q - inject_Z (round_half_even q)) <= 1 # 2)%Q.
Proof.
  unfold round_half_even.
  pose proof (Qfloor_le q) as Hlo. pose proof (Qlt_floor q) as Hhi.
  rewrite inject_Z_succ in Hhi.
  set (f := Qfloor q) in *.
  apply Qabs_Qle_condition.
  destruct (Qcompare (q - inject_Z f) (1 # 2)) eqn:Hc.
  - apply Qeq_alt in Hc.
    destruct (Z.even f); [|rewrite inject_Z_succ]; split; lra.
  - apply Qlt_alt in Hc. split; lra.
  - apply Qgt_alt in Hc. rewrite inject_Z_succ. split; lra.
Qed.

Lemma round_half_even_tie (q : Q) :
  (Qabs (q - inject_Z (round_half_even q)) == 1 # 2)%Q ->
  Z.even (round_half_even q) = true.
Proof.
  unfold round_half_even.
  pose proof (Qfloor_le q) as Hlo. pose proof (Qlt_floor q) as Hhi.
  rewrite inject_Z_succ in Hhi.
  set (f := Qfloor q) in *.
  destruct (Qcompare (q - inject_Z f) (1 # 2)) eqn:Hc.
  - intros _. destruct (Z.even f) eqn:He; [exact He|].
    rewrite Z.even_add, He. reflexivity.
  - apply Qlt_alt in Hc. intros Habs. exfalso.
    rewrite Qabs_pos in Habs by lra. lra.
  - apply Qgt_alt in Hc. intros Habs. exfalso.
    rewrite inject_Z_succ in Habs.
    rewrite Qabs_neg in Habs by lra. lra.
Qed.

(** [y] is [x] rounded to [ndigits] decimals: the nearest multiple of
    [10^-ndigits], the even one when [x] is half way between two. *)
Definition nearest_ties_even (x : Q) (ndigits : nat) (y : Q) : Prop :=
  exists k : Z,
    (y == inject_Z k / pow10 ndigits)%Q
    /\ (Qabs (x * pow10 ndigits - inject_Z k) <= 1 # 2)%Q
    /\ ((Qabs (x * pow10 ndigits - inject_Z k) == 1 # 2)%Q -> Z.even k = true).

Lemma py_round_nearest_ties_even (x : Q) (ndigits : nat) :
  nearest_ties_even x ndigits (py_round x ndigits).
Proof.
  exists (round_half_even (x * pow10 ndigits)).
  split; [apply Qred_correct|].
  split; [apply round_half_even_nearest | apply round_half_even_tie].
Qed.

(** ** The segmenter on samples of given number types *)

Lemma typed_segmenter_python_floats (positions : list Position)
    (times : list datetime) (min_elevation : Q) :
  TypedSegmenter._find_visibility_windows Binary64.python_kinds
    positions times min_elevation
  = _find_visibility_windows positions times min_elevation.
Proof. reflexivity. Qed.

Section TypedSegmenterPoints.

Import Binary64.

Variable kinds : FieldKinds.
Variable positions : list Position.
Variable min_elevation : Q.

(** The point was built from a sample. *)
Definition from_sample (pt : Point) : Prop :=
  exists s, In s positions /\ pt = TypedSegmenter.point_of kinds s.

Definition windows_from_samples (ws : list Window) : Prop :=
  Forall (fun w => Forall from_sample (points w)) ws.

(** What holds of the locals when the scan has consumed [done]. *)
Definition scan_ok (st : locals) (done : list Position) : Prop :=
  (in_window st = true ->
   (exists ws, window_start st = Some ws)
   /\ (exists mt, window_max_elevation_time st = Some mt)
   /\ done <> [])
  /\ windows_from_samples (windows st)
  /\ Forall from_sample (window_positions st).

Lemma typed_append_window (st : locals) (done : list Position)
    (window_end : datetime) :
  in_window st = true ->
  scan_ok st done ->
  exists ws, TypedSegmenter.append_window kinds st window_end = Ok ws
             /\ windows_from_samples ws.
Proof.
  intros Hin (Hopen & Hws & Hpts).
  destruct (Hopen Hin) as ((start & Hstart) & (mt & Hmt) & _).
  unfold TypedSegmenter.append_window. rewrite Hstart, Hmt. cbn [deref bind].
  eexists. split; [reflexivity|].
  apply Forall_app. split; [exact Hws|].
  constructor; [exact Hpts | constructor].
Qed.

Lemma typed_loop_ok (todo : list Position) :
  forall (done : list Position) (st : locals),
    positions = done ++ todo ->
    scan_ok st done ->
    exists st',
      for_each (TypedSegmenter.loop_body kinds positions min_elevation)
               (enumerate_from (List.length done) todo) st = Ok st'
      /\ scan_ok st' positions.
Proof.
  induction todo as [|p todo IH]; intros done st Hpos Hok.
  - exists st. rewrite app_nil_r in Hpos. subst done. split; [reflexivity | exact Hok].
  - cbn [enumerate_from for_each].
    assert (Hnext : positions = (done ++ [p]) ++ todo)
      by (rewrite <- app_assoc; exact Hpos).
    assert (Hlen : Datatypes.S (List.length done) = List.length (done ++ [p]))
      by (rewrite length_app; cbn [List.length]; lia).
    assert (Hp : from_sample (TypedSegmenter.point_of kinds p)).
    { exists p. split; [|reflexivity].
      rewrite Hpos. apply in_or_app. right. now left. }
    assert (Hgrown : done ++ [p] <> []) by (destruct done; discriminate).
    destruct Hok as (Hopen & Hws & Hpts).
    unfold TypedSegmenter.loop_body at 1.
    destruct (Qgeb (elevation p) min_elevation).
    + (* the sample is visible *)
      cbn [bind]. rewrite Hlen. apply IH; [exact Hnext|].
      destruct (in_window st) eqn:Hin; cbn [negb].
      * destruct (Hopen eq_refl) as (Hstart & Hmt & _).
        destruct (Qgtb (elevation p) (window_max_elevation st));
          cbn [in_window window_start window_positions
               window_max_elevation_time windows];
          (split;
             [intros _;
              split; [first [exact Hstart | eexists; reflexivity]|];
              split; [first [exact Hmt | eexists; reflexivity] | exact Hgrown] |]);
          (split; [exact Hws|]);
          (apply Forall_app; split; [exact Hpts | now constructor]).
      * cbn [window_max_elevation].
        destruct (Qgtb (elevation p) (elevation p));
          cbn [in_window window_start window_positions
               window_max_elevation_time windows];
          (split;
             [intros _;
              split; [eexists; reflexivity|];
              split; [eexists; reflexivity | exact Hgrown] |]);
          (split; [exact Hws|]);
          (cbn [app]; now constructor).
    + (* the sample is below the threshold *)
      destruct (Bool.bool_dec (in_window st) true) as [Hin | Hin];
        [|apply Bool.not_true_is_false in Hin]; rewrite Hin.
      * destruct (Hopen Hin) as (_ & _ & Hdone).
        destruct (exists_last Hdone) as (front & x & Hx).
        assert (Hprev : getitem positions (Z.of_nat (List.length done) - 1) = Ok x).
        { rewrite Hpos, Hx. apply getitem_prev. }
        rewrite Hprev. cbn [bind].
        destruct (typed_append_window st done (time x) Hin
                    (conj Hopen (conj Hws Hpts))) as (ws & Happ & Hgood).
        rewrite Happ. cbn [bind]. rewrite Hlen.
        apply IH; [exact Hnext|].
        split; [cbn [in_window]; discriminate|].
        split; [exact Hgood | exact Hpts].
      * cbn [bind]. rewrite Hlen. apply IH; [exact Hnext|].
        split; [rewrite Hin; discriminate|].
        split; [exact Hws | exact Hpts].
Qed.

(** The segmenter never raises, and every point it emits was built from
    a sample. *)
Lemma typed_points_from_samples (times : list datetime) :
  exists ws,
    TypedSegmenter._find_visibility_windows kinds positions times min_elevation
    = Ok ws
    /\ windows_from_samples ws.
Proof.
  unfold TypedSegmenter._find_visibility_windows, enumerate.
  destruct (typed_loop_ok positions [] initial eq_refl) as (st & Hrun & Hok).
  { split; [cbn [in_window initial]; discriminate|].
    split; constructor. }
  change (@List.length Position []) with 0%nat in Hrun.
  rewrite Hrun. cbn [bind].
  destruct (Bool.bool_dec (in_window st) true) as [Hin | Hin];
    [|apply Bool.not_true_is_false in Hin]; rewrite Hin; cbn [andb];
    [|exists (windows st); split; [reflexivity | exact (proj1 (proj2 Hok))]].
  destruct (match window_positions st with [] => true | _ :: _ => false end);
    cbn [negb];
    [exists (windows st); split; [reflexivity | exact (proj1 (proj2 Hok))]|].
  destruct (proj1 Hok Hin) as (_ & _ & Hdone).
  destruct (exists_last Hdone) as (front & x & Hx).
  assert (Hlast : getitem positions (-1) = Ok x)
    by (rewrite Hx; apply getitem_last).
  rewrite Hlast. cbn [bind].
  exact (typed_append_window st positions (time x) Hin Hok).
Qed.

End TypedSegmenterPoints.

(** The rounding of a numpy float64: the nearest multiple of
    [10^-ndigits] to the binary64 product [x * 10^ndigits], the even one
    when the product is half way between two. *)
Definition nearest_to_product (x : Q) (ndigits : nat) (y : Q) : Prop :=
  exists k : Z,
    (y == inject_Z k / pow10 ndigits)%Q
    /\ (Qabs (Binary64.fl (x * pow10 ndigits) - inject_Z k) <= 1 # 2)%Q
    /\ ((Qabs (Binary64.fl (x * pow10 ndigits) - inject_Z k) == 1 # 2)%Q ->
        Z.even k = true).

Lemma np_round_nearest_to_product (x : Q) (ndigits : nat) :
  nearest_to_product x ndigits (Binary64.np_round x ndigits).
Proof.
  exists (round_half_even (Binary64.fl (x * pow10 ndigits))).
  split; [apply Qred_correct|].
  split; [apply round_half_even_nearest | apply round_half_even_tie].
Qed.

(** What [round] returns for a number of the given type. *)
Definition rounded (k : Binary64.float_kind) (x : Q) (ndigits : nat) (y : Q) : Prop :=
  match k with
  | Binary64.PythonFloat => nearest_ties_even x ndigits y
  | Binary64.NumpyFloat64 => nearest_to_product x ndigits y
  end.

Lemma round_as_rounded (k : Binary64.float_kind) (x : Q) (ndigits : nat) :
  rounded k x ndigits (Binary64.round_as k x ndigits).
Proof.
  destruct k; [apply py_round_nearest_ties_even | apply np_round_nearest_to_product].
Qed.

(** Both kinds round 0 to 0, so a range rate of python-sgp4 that is the
    Python float [0.0] is rounded as a numpy float64 would be. *)
Lemma round_as_zero (k : Binary64.float_kind) (ndigits : nat) :
  (Binary64.round_as k 0 ndigits == 0)%Q.
Proof.
  destruct k; cbn [Binary64.round_as]; unfold py_round, Binary64.np_round;
    rewrite Qred_correct.
  - rewrite (round_half_even_comp (0 * pow10 ndigits) 0) by apply Qmult_0_l.
    apply Qmult_0_l.
  - assert (Hfl : Binary64.fl (0 * pow10 ndigits) = 0%Q) by reflexivity.
    rewrite Hfl. apply Qmult_0_l.
Qed.

(** The double written 16.055: numpy rounds it to 16.06, the built-in
    float rounding to 16.05. *)
Example round_16_055 :
  (Binary64.np_round (Binary64.fl 16.055) 2 == 16.06)%Q
  /\ (py_round (Binary64.fl 16.055) 2 == 16.05)%Q.
Proof. split; vm_compute; reflexivity. Qed.

(** C9, as stated, fails in both calculators: the azimuth 0.125 is
    emitted as 0.12 and the range rate 0.0625 as 0.062, where rounding
    half away from zero gives 0.13 and 0.063. *)
Lemma C9_counterexample :
  (exists w pt,
      TypedSegmenter._find_visibility_windows Binary64.sgp4_kinds
        [tie_sample] [] 10 = Ok [w]
      /\ points w = [pt]
      /\ (pt_azimuth pt == 0.12)%Q
      /\ (pt_rangeRate pt == 0.062)%Q)
  /\ (exists w pt,
        TypedSegmenter._find_visibility_windows Binary64.skyfield_kinds
          [tie_sample] [] 10 = Ok [w]
        /\ points w = [pt]
        /\ (pt_azimuth pt == 0.12)%Q
        /\ (pt_rangeRate pt == 0.062)%Q)
  /\ (round_away (azimuth tie_sample) 2 == 0.13)%Q
  /\ (round_away (rangeRate tie_sample) 3 == 0.063)%Q
  /\ ~ (0.12 == 0.13)%Q
  /\ ~ (0.062 == 0.063)%Q.
Proof.
  split; [|split; [|split; [|split; [|split]]]].
  - eexists. eexists. split; [vm_compute; reflexivity|].
    split; [reflexivity|]. split; vm_compute; reflexivity.
  - eexists. eexists. split; [vm_compute; reflexivity|].
    split; [reflexivity|]. split; vm_compute; reflexivity.
  - vm_compute. reflexivity.
  - vm_compute. reflexivity.
  - vm_compute. discriminate.
  - vm_compute. discriminate.
Qed.

(** C9, amended. Whatever the types of the numbers of the samples, the
    segmenter returns, and every point it emits comes from a sample: its
    azimuth, elevation, range and altitude are [round(x, 2)] and its
    range rate [round(x, 3)] of the sample's values.  For a Python float
    (azimuth and elevation in python-sgp4) that is the nearest such
    decimal, a tie going to the even last digit; for a numpy float64
    (range, range rate and altitude in python-sgp4, every number in
    python-skyfield) it is the nearest such decimal to the binary64
    product [x * 10^n], a tie of the product going to the even last
    digit. *)
Theorem C9_points_rounded (kinds : Binary64.FieldKinds)
    (positions : list Position) (times : list datetime) (min_elevation : Q) :
  exists ws,
    TypedSegmenter._find_visibility_windows kinds positions times min_elevation
    = Ok ws
    /\ forall w, In w ws -> forall pt, In pt (points w) ->
       exists s,
         In s positions
         /\ pt_time pt = strftime (time s)
         /\ pt_azimuth pt
            = Binary64.round_as (Binary64.azimuth_kind kinds) (azimuth s) 2
         /\ pt_elevation pt
            = Binary64.round_as (Binary64.elevation_kind kinds) (elevation s) 2
         /\ pt_range pt
            = Binary64.round_as (Binary64.range_kind kinds) (range s) 2
         /\ pt_rangeRate pt
            = Binary64.round_as (Binary64.rangeRate_kind kinds) (rangeRate s) 3
         /\ pt_altitude pt
            = Binary64.round_as (Binary64.altitude_kind kinds) (altitude s) 2
         /\ rounded (Binary64.azimuth_kind kinds) (azimuth s) 2 (pt_azimuth pt)
         /\ rounded (Binary64.elevation_kind kinds) (elevation s) 2 (pt_elevation pt)
         /\ rounded (Binary64.range_kind kinds) (range s) 2 (pt_range pt)
         /\ rounded (Binary64.rangeRate_kind kinds) (rangeRate s) 3 (pt_rangeRate pt)
         /\ rounded (Binary64.altitude_kind kinds) (altitude s) 2 (pt_altitude pt).
Proof.
  destruct (typed_points_from_samples kinds positions min_elevation times)
    as (ws & Hrun & Hgood).
  exists ws. split; [exact Hrun|].
  intros w Hw pt Hpt.
  pose proof (proj1 (Forall_forall _ _) Hgood w Hw) as Hpoints.
  destruct (proj1 (Forall_forall _ _) Hpoints pt Hpt) as (s & Hs & ->).
  exists s. split; [exact Hs|].
  cbn [TypedSegmenter.point_of pt_time pt_azimuth pt_elevation pt_range
       pt_rangeRate pt_altitude].
  repeat split; apply round_as_rounded.
Qed.

(** C10. The result of [_find_visibility_windows] is the same for any two
    values of its [times] argument. *)
Theorem C10_times_argument_unused (positions : list Position)
    (times1 times2 : list datetime) (min_elevation : Q) :
  _find_visibility_windows positions times1 min_elevation
  = _find_visibility_windows positions times2 min_elevation.
Proof.
  rewrite !find_visibility_windows_runs. reflexivity.
Qed.

(* ================================================================== *)
(** * The time grid *)
(* ================================================================== *)

Lemma grid_length (start : datetime) (step_seconds : Z) (n : nat) :
  List.length (grid start step_seconds n) = n.
Proof. unfold grid. now rewrite length_map, length_seq. Qed.

Lemma grid_nth (start : datetime) (step_seconds : Z) (n k : nat) :
  (k < n)%nat ->
  nth_error (grid start step_seconds n) k
  = Some (add start (timedelta_seconds (Z.of_nat k * step_seconds))).
Proof.
  intros Hk. unfold grid.
  rewrite nth_error_map, nth_error_seq.
  destruct (Nat.ltb_spec k n) as [_ | Hge]; [reflexivity | lia].
Qed.

Lemma grid_succ (start : datetime) (step_seconds : Z) (n : nat) :
  grid start step_seconds (Datatypes.S n)
  = start :: grid (add start (timedelta_seconds step_seconds)) step_seconds n.
Proof.
  unfold grid. cbn [seq map]. f_equal.
  - unfold add, timedelta_seconds. lia.
  - rewrite <- seq_shift, map_map. apply map_ext. intros k.
    unfold add, timedelta_seconds. lia.
Qed.

(** The loop appends the grid of the [n] times that are not after [end_]. *)
Lemma generate_times_loop_grid (end_ : datetime) (step_seconds : Z) (n : nat) :
  forall (fuel : nat) (times : list datetime) (current : datetime),
    (n < fuel)%nat ->
    (forall k, (k < n)%nat ->
               add current (timedelta_seconds (Z.of_nat k * step_seconds)) <= end_) ->
    end_ < add current (timedelta_seconds (Z.of_nat n * step_seconds)) ->
    generate_times_loop fuel times current end_ step_seconds
    = Some (times ++ grid current step_seconds n).
Proof.
  induction n as [|n IH]; intros fuel times current Hfuel Hin Hout.
  - destruct fuel as [|fuel]; [lia|]. cbn [generate_times_loop].
    unfold add, timedelta_seconds in Hout. unfold leb.
    destruct (Z.leb_spec current end_) as [Hle | _]; [lia|].
    cbn [grid seq map]. now rewrite app_nil_r.
  - destruct fuel as [|fuel]; [lia|]. cbn [generate_times_loop].
    pose proof (Hin 0%nat ltac:(lia)) as H0.
    unfold add, timedelta_seconds in H0. unfold leb.
    destruct (Z.leb_spec current end_) as [_ | Hgt]; [|lia].
    rewrite IH.
    + rewrite grid_succ, <- app_assoc. reflexivity.
    + lia.
    + intros k Hk. specialize (Hin (Datatypes.S k) ltac:(lia)).
      unfold add, timedelta_seconds in *. lia.
    + unfold add, timedelta_seconds in *. lia.
Qed.

(** The number of grid times from [start] that are not after [end_]. *)
Definition grid_size (start end_ : datetime) (step_seconds : Z) : nat :=
  Z.to_nat ((end_ - start) / timedelta_seconds step_seconds + 1).

Lemma grid_size_bounds (start end_ : datetime) (step_seconds : Z) :
  start <= end_ -> 0 < step_seconds ->
  let n := grid_size start end_ step_seconds in
  (0 < n)%nat
  /\ add start (timedelta_seconds (Z.of_nat (n - 1) * step_seconds)) <= end_
  /\ end_ < add start (timedelta_seconds (Z.of_nat n * step_seconds)).
Proof.
  intros Hle Hstep. cbv zeta. unfold grid_size, add, timedelta_seconds, us_per_second.
  set (d := step_seconds * 1000000).
  assert (Hd : 0 < d) by (subst d; lia).
  pose proof (Z.div_pos (end_ - start) d ltac:(lia) Hd) as Hq.
  pose proof (Z.mul_div_le (end_ - start) d Hd) as Hlo.
  pose proof (Z.mul_succ_div_gt (end_ - start) d Hd) as Hhi.
  set (q := (end_ - start) / d) in *.
  split; [lia|].
  rewrite Nat2Z.inj_sub by lia. rewrite Z2Nat.id by lia.
  split; nia.
Qed.

(* ================================================================== *)
(** * python-sgp4: the sample generator, step by step *)
(* ================================================================== *)

Module Sgp4Steps.

Import Sgp4.

Section Steps.
Context {M : MathLib} {A : Sgp4Api}.
Variable satellite : Satrec.
Variable observer_ecef : vec3.
Variables observer_lat observer_lon : Q.
Local Open Scope Q_scope.

(** The error code of the propagation at [dt] is 0. *)
Definition propagation_ok (dt : datetime) : bool :=
  let '(jd, fr) := jday_of dt in
  let '(error_code, _, _) := sgp4 satellite jd fr in
  (error_code =? 0)%Z.

(** The Earth-fixed position of the satellite at [dt]. *)
Definition ecef_at (dt : datetime) : vec3 :=
  let '(jd, fr) := jday_of dt in
  let '(_, sat_pos_teme, _) := sgp4 satellite jd fr in
  _teme_to_ecef sat_pos_teme jd fr.

(** The distance from the observer to the satellite at [dt]. *)
Definition range_at (dt : datetime) : Q := norm (vsub (ecef_at dt) observer_ecef).

(** The range rate of the sample at [dt] when [next] is the following time
    of the grid, if any. *)
Definition lookahead_rate (next : option datetime) (dt : datetime) (range_km : Q) : Q :=
  match next with
  | None => 0.0
  | Some dt_next =>
      if propagation_ok dt_next then
        let time_diff := total_seconds (sub dt_next dt) in
        if Qgtb time_diff 0 then (range_at dt_next - range_km) / time_diff else 0.0
      else 0.0
  end.

(** The samples appended at step [i]: none when the propagation fails. *)
Definition step_samples (times : list datetime) (idt : nat * datetime)
  : list Position :=
  let '(i, dt) := idt in
  if propagation_ok dt then
    let range_vec := vsub (ecef_at dt) observer_ecef in
    let '(az, el) := _ecef_to_azel range_vec observer_lat observer_lon in
    [mkPosition dt el az (norm range_vec)
                (lookahead_rate (nth_error times (Datatypes.S i)) dt (norm range_vec))
                (norm (ecef_at dt) - EARTH_RADIUS_KM)]
  else [].

Lemma range_rate_at_lookahead (times : list datetime) (i : nat) (dt : datetime)
    (range_km : Q) :
  range_rate_at satellite observer_ecef times i dt range_km
  = Ok (lookahead_rate (nth_error times (Datatypes.S i)) dt range_km).
Proof.
  unfold range_rate_at, lookahead_rate.
  destruct (Z.ltb_spec (Z.of_nat i) (Z.of_nat (List.length times) - 1)) as [Hlt | Hge].
  - destruct (nth_error times (Datatypes.S i)) as [dt_next|] eqn:Hnext.
    + replace (Z.of_nat i + 1)%Z with (Z.of_nat (Datatypes.S i)) by lia.
      rewrite (getitem_nat _ _ _ Hnext). cbn [bind].
      unfold propagation_ok, range_at, ecef_at.
      destruct (jday_of dt_next) as [jd_next fr_next].
      destruct (sgp4 satellite jd_next fr_next) as [[error_code_next pos] vel].
      destruct (error_code_next =? 0)%Z; reflexivity.
    + apply nth_error_None in Hnext. lia.
  - assert (Hnone : nth_error times (Datatypes.S i) = None)
      by (apply nth_error_None; lia).
    rewrite Hnone. reflexivity.
Qed.

Lemma loop_body_appends (times : list datetime) (positions : list Position)
    (idt : nat * datetime) :
  loop_body satellite observer_ecef times observer_lat observer_lon positions idt
  = Ok (positions ++ step_samples times idt).
Proof.
  destruct idt as [i dt]. unfold loop_body, step_samples, propagation_ok, ecef_at.
  destruct (jday_of dt) as [jd fr].
  destruct (sgp4 satellite jd fr) as [[error_code pos] vel].
  destruct (error_code =? 0)%Z; cbn [negb].
  - destruct (_ecef_to_azel (vsub (_teme_to_ecef pos jd fr) observer_ecef)
                            observer_lat observer_lon) as [az el].
    rewrite range_rate_at_lookahead. reflexivity.
  - now rewrite app_nil_r.
Qed.

Lemma for_each_appends (times : list datetime) (steps : list (nat * datetime)) :
  forall positions,
    for_each (loop_body satellite observer_ecef times observer_lat observer_lon)
             steps positions
    = Ok (positions ++ flat_map (step_samples times) steps).
Proof.
  induction steps as [|idt steps IH]; intros positions; cbn [for_each flat_map].
  - now rewrite app_nil_r.
  - rewrite loop_body_appends. cbn [bind]. rewrite IH, <- app_assoc. reflexivity.
Qed.

(** [_calculate_positions] never raises: it returns the samples of the
    steps, in order. *)
Lemma calculate_positions_steps (times : list datetime) :
  _calculate_positions satellite observer_ecef times observer_lat observer_lon
  = Ok (flat_map (step_samples times) (enumerate times)).
Proof.
  unfold _calculate_positions. now rewrite for_each_appends.
Qed.

Lemma enumerate_from_app {X : Type} (i : nat) (xs ys : list X) :
  enumerate_from i (xs ++ ys)
  = enumerate_from i xs ++ enumerate_from (i + List.length xs) ys.
Proof.
  revert i. induction xs as [|x xs IH]; intros i; cbn [enumerate_from app List.length].
  - now rewrite Nat.add_0_r.
  - rewrite IH. do 3 f_equal. lia.
Qed.

(** The times of the samples of some steps are the times at which the
    propagation succeeds. *)
Lemma step_samples_times (times : list datetime) (i : nat) (part : list datetime) :
  map time (flat_map (step_samples times) (enumerate_from i part))
  = filter propagation_ok part.
Proof.
  revert i. induction part as [|dt part IH]; intros i; [reflexivity|].
  cbn [enumerate_from flat_map filter]. rewrite map_app, IH.
  unfold step_samples.
  destruct (propagation_ok dt); [|reflexivity].
  destruct (_ecef_to_azel (vsub (ecef_at dt) observer_ecef)
                          observer_lat observer_lon) as [az el].
  reflexivity.
Qed.

End Steps.

End Sgp4Steps.

(* ================================================================== *)
(** * The time grid with the limits of [datetime] *)
(* ================================================================== *)

(** [step_seconds] is a [timedelta]. *)
Definition step_fits (step_seconds : Z) : bool :=
  timedelta_seconds step_seconds / us_per_day <=? 999999999.

(** The time that ends the loop, the first one after [end_], is a
    [datetime], and the step is a [timedelta]. *)
Definition grid_fits (start end_ : datetime) (step_seconds : Z) : bool :=
  step_fits step_seconds
  && (add start (timedelta_seconds
                   (Z.of_nat (grid_size start end_ step_seconds) * step_seconds))
      <? max_instant).

Lemma timedelta_of_seconds_fits (step_seconds : Z) :
  0 < step_seconds ->
  timedelta_of_seconds step_seconds
  = if step_fits step_seconds then Ok (timedelta_seconds step_seconds)
    else Raise OverflowError.
Proof.
  intros Hstep. unfold timedelta_of_seconds, step_fits, timedelta_seconds.
  assert (H0 : 0 <= step_seconds * us_per_second / us_per_day).
  { apply Z.div_pos; unfold us_per_day, us_per_second; lia. }
  destruct (Z.leb_spec (-999999999) (step_seconds * us_per_second / us_per_day));
    [reflexivity | lia].
Qed.

(** The loop on a grid of [n] times that are not after [end_]: it
    returns the grid when the time that ends the loop is a [datetime],
    and raises OverflowError when it is not. *)
Lemma bounded_loop_grid (end_ : datetime) (step_seconds : Z) (n : nat) :
  0 < step_seconds ->
  step_fits step_seconds = true ->
  end_ < max_instant ->
  forall (fuel : nat) (times : list datetime) (current : datetime),
    (n < fuel)%nat ->
    0 <= current ->
    (forall k, (k < n)%nat ->
               add current (timedelta_seconds (Z.of_nat k * step_seconds)) <= end_) ->
    end_ < add current (timedelta_seconds (Z.of_nat n * step_seconds)) ->
    Bounded.generate_times_loop fuel times current end_ step_seconds
    = Some (if (n =? 0)%nat
               || (add current (timedelta_seconds (Z.of_nat n * step_seconds))
                   <? max_instant)
            then Ok (times ++ grid current step_seconds n)
            else Raise OverflowError).
Proof.
  intros Hstep Hfits Hend.
  induction n as [|n IH]; intros fuel times current Hfuel Hcur Hin Hout.
  - destruct fuel as [|fuel]; [lia|]. cbn [Bounded.generate_times_loop].
    unfold add, timedelta_seconds in Hout. unfold leb.
    destruct (Z.leb_spec current end_) as [Hle | _]; [lia|].
    cbn [Nat.eqb orb grid seq map]. now rewrite app_nil_r.
  - destruct fuel as [|fuel]; [lia|]. cbn [Bounded.generate_times_loop].
    pose proof (Hin 0%nat ltac:(lia)) as H0.
    unfold add, timedelta_seconds in H0. unfold leb.
    destruct (Z.leb_spec current end_) as [_ | Hgt]; [|lia].
    rewrite (timedelta_of_seconds_fits step_seconds Hstep), Hfits. cbn [bind].
    unfold add_checked, in_range. fold (add current (timedelta_seconds step_seconds)).
    set (next := add current (timedelta_seconds step_seconds)).
    assert (Hnext : 0 <= next)
      by (subst next; unfold add, timedelta_seconds, us_per_second; lia).
    assert (Hstop : add current (timedelta_seconds (Z.of_nat (Datatypes.S n) * step_seconds))
                    = add next (timedelta_seconds (Z.of_nat n * step_seconds))).
    { subst next. unfold add, timedelta_seconds. rewrite Nat2Z.inj_succ.
      unfold us_per_second. lia. }
    rewrite Hstop. cbn [Nat.eqb orb].
    destruct (Z.leb_spec 0 next) as [_ | Hneg]; [|lia]. cbn [andb].
    destruct (Z.ltb_spec next max_instant) as [Hin_range | Hover].
    + (* the next time is a datetime *)
      rewrite IH; [| lia | exact Hnext | | rewrite <- Hstop; exact Hout].
      * rewrite grid_succ, <- app_assoc. fold next. cbn [app].
        destruct n as [|n]; [|reflexivity].
        cbn [Nat.eqb orb].
        replace (add next (timedelta_seconds (Z.of_nat 0 * step_seconds)))
          with next by (unfold add, timedelta_seconds; lia).
        destruct (Z.ltb_spec next max_instant) as [_ | Hover]; [reflexivity | lia].
      * intros k Hk. specialize (Hin (Datatypes.S k) ltac:(lia)).
        subst next. unfold add, timedelta_seconds in *.
        rewrite Nat2Z.inj_succ in Hin. unfold us_per_second in *. lia.
    + (* the next time is past the year 9999 *)
      destruct (Z.ltb_spec (add next (timedelta_seconds (Z.of_nat n * step_seconds)))
                           max_instant) as [Hlt | _]; [|reflexivity].
      exfalso. unfold add, timedelta_seconds, us_per_second in Hlt. nia.
Qed.

Lemma bounded_loop_step_overflow (fuel : nat) (times : list datetime)
    (current end_ : datetime) (step_seconds : Z) :
  0 < step_seconds ->
  step_fits step_seconds = false ->
  current <= end_ ->
  Bounded.generate_times_loop (Datatypes.S fuel) times current end_ step_seconds
  = Some (Raise OverflowError).
Proof.
  intros Hstep Hfits Hle. cbn [Bounded.generate_times_loop]. unfold leb.
  destruct (Z.leb_spec current end_) as [_ | Hgt]; [|lia].
  rewrite (timedelta_of_seconds_fits step_seconds Hstep), Hfits. reflexivity.
Qed.

(** [_generate_times] with the limits of [datetime]. *)
Lemma bounded_generate_times (start end_ : datetime) (step_seconds : Z) :
  0 <= start ->
  start <= end_ ->
  end_ < max_instant ->
  0 < step_seconds ->
  forall fuel, (grid_size start end_ step_seconds < fuel)%nat ->
    Bounded._generate_times fuel start end_ step_seconds
    = Some (if grid_fits start end_ step_seconds
            then Ok (grid start step_seconds (grid_size start end_ step_seconds))
            else Raise OverflowError).
Proof.
  intros Hvalid Hle Hend Hstep fuel Hfuel.
  destruct (grid_size_bounds start end_ step_seconds Hle Hstep) as (Hn & Hlast & Hout).
  set (n := grid_size start end_ step_seconds) in *.
  unfold Bounded._generate_times, grid_fits. fold n.
  destruct (step_fits step_seconds) eqn:Hfits; cbn [andb].
  - rewrite (bounded_loop_grid end_ step_seconds n Hstep Hfits Hend
               fuel [] start Hfuel Hvalid); [| | exact Hout].
    + destruct n as [|m]; [lia|]. cbn [Nat.eqb orb app]. reflexivity.
    + intros k Hk. unfold add, timedelta_seconds, us_per_second in *. nia.
  - destruct fuel as [|fuel]; [lia|].
    now apply bounded_loop_step_overflow.
Qed.

(* ================================================================== *)
(** * The time grid and the sample generators: claims *)
(* ================================================================== *)

Section GeneratorClaims.

Context {M : MathLib} {A : Sgp4.Sgp4Api} {S : Skyfield.SkyfieldApi}.
Import Sgp4Steps.

Lemma skyfield_positions_append (times : list datetime) :
  forall positions,
    fold_left Skyfield.loop_body times positions
    = positions ++ fold_left Skyfield.loop_body times [].
Proof.
  induction times as [|dt times IH]; intros positions; cbn [fold_left].
  - now rewrite app_nil_r.
  - rewrite IH. rewrite (IH (Skyfield.loop_body [] dt)).
    rewrite app_assoc. f_equal.
    unfold Skyfield.loop_body.
    destruct (Skyfield.altaz _) as [[alt az] distance]. reflexivity.
Qed.

(** The sample the Skyfield loop appends for [dt]. *)
Lemma skyfield_positions_cons (dt : datetime) (times : list datetime) :
  Skyfield._calculate_positions (dt :: times)
  = Skyfield.loop_body [] dt ++ Skyfield._calculate_positions times.
Proof.
  unfold Skyfield._calculate_positions. cbn [fold_left].
  apply skyfield_positions_append.
Qed.

Lemma skyfield_loop_body_one (dt : datetime) :
  exists s, Skyfield.loop_body [] dt = [s]
    /\ time s = dt
    /\ rangeRate s
       = (Skyfield.distance_km
            (Skyfield.difference_at
               (Skyfield.ts_utc (year dt) (month dt) (day dt)
                                (hour dt) (minute dt) (second dt + 1)))
          - snd (Skyfield.altaz
                   (Skyfield.difference_at
                      (Skyfield.ts_utc (year dt) (month dt) (day dt)
                                       (hour dt) (minute dt) (second dt)))))%Q
    /\ altitude s
       = (Skyfield.distance_km
            (Skyfield.satellite_at
               (Skyfield.ts_utc (year dt) (month dt) (day dt)
                                (hour dt) (minute dt) (second dt)))
          - 6371.0)%Q.
Proof.
  unfold Skyfield.loop_body.
  destruct (Skyfield.altaz _) as [[alt az] distance].
  eexists. split; [reflexivity|]. repeat split.
Qed.

Lemma skyfield_positions_nth (times : list datetime) :
  forall (i : nat) (dt : datetime),
    nth_error times i = Some dt ->
    exists s, nth_error (Skyfield._calculate_positions times) i = Some s
              /\ Skyfield.loop_body [] dt = [s].
Proof.
  induction times as [|t times IH]; intros i dt Hi.
  - destruct i; discriminate.
  - rewrite skyfield_positions_cons.
    destruct (skyfield_loop_body_one t) as (s0 & Hs0 & _).
    rewrite Hs0. destruct i as [|i]; cbn [nth_error app] in *.
    + injection Hi as <-. exists s0. split; [reflexivity | exact Hs0].
    + exact (IH i dt Hi).
Qed.

(** C6, amended. For a [datetime] [start <= end], a [datetime] [end] and
    a positive step, the grid is [start, start + step, ...] up to the
    largest time that is not after [end]; [_generate_times] returns it
    when the step is a [timedelta] and the first time after [end] is
    still a [datetime], and raises OverflowError otherwise.  For
    [start = end] the grid is [[start]], and one sample is produced where
    the propagation succeeds. *)
Theorem C6_time_grid (satellite : Sgp4.Satrec) (observer_ecef : vec3)
    (observer_lat observer_lon : Q) (start end_ : datetime) (step_seconds : Z) :
  0 <= start ->
  start <= end_ ->
  end_ < max_instant ->
  0 < step_seconds ->
  let n := grid_size start end_ step_seconds in
  let times := grid start step_seconds n in
  (forall fuel, (n < fuel)%nat ->
      Bounded._generate_times fuel start end_ step_seconds
      = Some (if grid_fits start end_ step_seconds
              then Ok times else Raise OverflowError))
  /\ List.length times = n
  /\ hd_error times = Some start
  /\ (forall k tk tk', nth_error times k = Some tk ->
                       nth_error times (Datatypes.S k) = Some tk' ->
                       tk' = add tk (timedelta_seconds step_seconds))
  /\ (exists final,
        nth_error times (n - 1) = Some final
        /\ final <= end_
        /\ end_ < add final (timedelta_seconds step_seconds))
  /\ (start = end_ ->
      times = [start]
      /\ (propagation_ok satellite start = true ->
          exists s, Sgp4._calculate_positions satellite observer_ecef times
                      observer_lat observer_lon = Ok [s]
                    /\ time s = start)
      /\ (exists s, Skyfield._calculate_positions times = [s] /\ time s = start)).
Proof.
  intros Hvalid Hle Hend Hstep. cbv zeta.
  destruct (grid_size_bounds start end_ step_seconds Hle Hstep) as (Hn & Hlast & Hout).
  set (n := grid_size start end_ step_seconds) in *.
  split.
  { intros fuel Hfuel.
    exact (bounded_generate_times start end_ step_seconds
             Hvalid Hle Hend Hstep fuel Hfuel). }
  split; [apply grid_length|].
  split.
  { destruct n as [|m]; [lia|]. rewrite grid_succ. reflexivity. }
  split.
  { intros k tk tk' Hk Hk'.
    assert (Hlt : (Datatypes.S k < n)%nat).
    { rewrite <- (grid_length start step_seconds n).
      apply nth_error_Some. congruence. }
    rewrite grid_nth in Hk by lia. rewrite grid_nth in Hk' by lia.
    assert (Ek : tk = add start (timedelta_seconds (Z.of_nat k * step_seconds)))
      by congruence.
    assert (Ek' : tk' = add start (timedelta_seconds
                                     (Z.of_nat (Datatypes.S k) * step_seconds)))
      by congruence.
    rewrite Ek, Ek'. unfold add, timedelta_seconds.
    rewrite Nat2Z.inj_succ. unfold us_per_second. lia. }
  split.
  { exists (add start (timedelta_seconds (Z.of_nat (n - 1) * step_seconds))).
    split; [apply grid_nth; lia|]. split; [exact Hlast|].
    unfold add, timedelta_seconds in *. nia. }
  intros Heq.
  assert (Hone : n = 1%nat).
  { subst n. unfold grid_size. subst end_. rewrite Z.sub_diag.
    rewrite Z.div_0_l; [reflexivity|].
    unfold timedelta_seconds, us_per_second. lia. }
  rewrite Hone.
  assert (Hgrid : grid start step_seconds 1 = [start]).
  { unfold grid. cbn [seq map]. unfold add, timedelta_seconds. f_equal. lia. }
  rewrite Hgrid. split; [reflexivity|]. split.
  - intros Hok. rewrite calculate_positions_steps.
    unfold enumerate. cbn [enumerate_from flat_map]. rewrite app_nil_r.
    unfold step_samples. rewrite Hok.
    destruct (Sgp4._ecef_to_azel _ _ _) as [az el].
    eexists. split; reflexivity.
  - rewrite skyfield_positions_cons.
    destruct (skyfield_loop_body_one start) as (s & Hs & Ht & _).
    exists s. rewrite Hs. split; [reflexivity | exact Ht].
Qed.

Lemma steps_split (satellite : Sgp4.Satrec) (observer_ecef : vec3)
    (observer_lat observer_lon : Q) (front : list datetime) (dt : datetime)
    (back : list datetime) :
  let times := front ++ dt :: back in
  let step := step_samples satellite observer_ecef observer_lat observer_lon times in
  flat_map step (enumerate times)
  = flat_map step (enumerate_from 0 front)
    ++ step (List.length front, dt)
    ++ flat_map step (enumerate_from (Datatypes.S (List.length front)) back).
Proof.
  cbv zeta. unfold enumerate. rewrite enumerate_from_app.
  cbn [enumerate_from Nat.add]. rewrite flat_map_app. cbn [flat_map]. reflexivity.
Qed.

(** python-sgp4: when the propagation fails at a time step (error code
    not 0), [_calculate_positions] still returns: the samples of the
    steps before it followed by the samples of the steps after it, each
    computed on the same grid, with no sample for the failed step; the
    segmenter is run on that list. *)
Lemma sgp4_failed_step_skipped (satellite : Sgp4.Satrec) (observer_ecef : vec3)
    (observer_lat observer_lon : Q) (front : list datetime) (dt : datetime)
    (back : list datetime) (min_elevation : Q) :
  propagation_ok satellite dt = false ->
  let times := front ++ dt :: back in
  let step := step_samples satellite observer_ecef observer_lat observer_lon times in
  exists before after,
    Sgp4._calculate_positions satellite observer_ecef times observer_lat observer_lon
    = Ok (before ++ after)
    /\ before = flat_map step (enumerate_from 0 front)
    /\ after = flat_map step (enumerate_from (Datatypes.S (List.length front)) back)
    /\ map time before = filter (propagation_ok satellite) front
    /\ map time after = filter (propagation_ok satellite) back
    /\ map time (before ++ after) = filter (propagation_ok satellite) times
    /\ (positions <- Sgp4._calculate_positions satellite observer_ecef times
                       observer_lat observer_lon ;;
        _find_visibility_windows positions times min_elevation)
       = _find_visibility_windows (before ++ after) [] min_elevation.
Proof.
  intros Hfail. cbv zeta.
  assert (Hcalc :
    Sgp4._calculate_positions satellite observer_ecef (front ++ dt :: back)
      observer_lat observer_lon
    = Ok (flat_map (step_samples satellite observer_ecef observer_lat observer_lon
                                 (front ++ dt :: back))
                   (enumerate_from 0 front)
          ++ flat_map (step_samples satellite observer_ecef observer_lat observer_lon
                                    (front ++ dt :: back))
                      (enumerate_from (Datatypes.S (List.length front)) back))).
  { rewrite calculate_positions_steps.
    pose proof (steps_split satellite observer_ecef observer_lat observer_lon
                            front dt back) as Hsplit.
    cbv zeta in Hsplit. rewrite Hsplit.
    unfold step_samples at 2. rewrite Hfail. reflexivity. }
  eexists. eexists. split; [exact Hcalc|].
  split; [reflexivity|]. split; [reflexivity|].
  split; [apply step_samples_times|]. split; [apply step_samples_times|].
  split.
  - rewrite map_app, !step_samples_times.
    rewrite filter_app. cbn [filter]. rewrite Hfail. reflexivity.
  - rewrite Hcalc. cbn [bind]. now rewrite !find_visibility_windows_runs.
Qed.

Lemma skyfield_positions_app (front back : list datetime) :
  Skyfield._calculate_positions (front ++ back)
  = Skyfield._calculate_positions front ++ Skyfield._calculate_positions back.
Proof.
  induction front as [|dt front IH]; [reflexivity|].
  cbn [app]. rewrite !skyfield_positions_cons, IH. now rewrite app_assoc.
Qed.

(** C4, amended. In python-sgp4 a time step whose propagation fails
    (error code not 0) gets no sample, the loop goes on with the
    remaining steps without raising, and the segmenter is run on the
    samples of the other steps.  In python-skyfield the error message of
    a failed propagation is not read: the step gets a sample like every
    other step. *)
Theorem C4_failed_step_per_calculator (satellite : Sgp4.Satrec)
    (observer_ecef : vec3) (observer_lat observer_lon : Q)
    (front : list datetime) (dt : datetime) (back : list datetime)
    (min_elevation : Q) (error_text : string) :
  let times := front ++ dt :: back in
  let step := step_samples satellite observer_ecef observer_lat observer_lon times in
  (propagation_ok satellite dt = false ->
   exists before after,
     Sgp4._calculate_positions satellite observer_ecef times observer_lat observer_lon
     = Ok (before ++ after)
     /\ before = flat_map step (enumerate_from 0 front)
     /\ after = flat_map step (enumerate_from (Datatypes.S (List.length front)) back)
     /\ map time before = filter (propagation_ok satellite) front
     /\ map time after = filter (propagation_ok satellite) back
     /\ map time (before ++ after) = filter (propagation_ok satellite) times
     /\ (positions <- Sgp4._calculate_positions satellite observer_ecef times
                        observer_lat observer_lon ;;
         _find_visibility_windows positions times min_elevation)
        = _find_visibility_windows (before ++ after) [] min_elevation)
  /\ (Skyfield.propagation_message dt = Some error_text ->
      exists before s after,
        Skyfield._calculate_positions times = before ++ s :: after
        /\ map time before = front
        /\ time s = dt
        /\ map time after = back).
Proof.
  cbv zeta. split.
  - intros Hfail.
    exact (sgp4_failed_step_skipped satellite observer_ecef observer_lat
             observer_lon front dt back min_elevation Hfail).
  - intros _.
    destruct (skyfield_loop_body_one dt) as (s & Hs & Ht & _).
    exists (Skyfield._calculate_positions front), s,
           (Skyfield._calculate_positions back).
    rewrite skyfield_positions_app, skyfield_positions_cons, Hs.
    split; [reflexivity|].
    split; [|split; [exact Ht|]].
    + clear. induction front as [|t front IH]; [reflexivity|].
      rewrite skyfield_positions_cons.
      destruct (skyfield_loop_body_one t) as (s & Hs & Ht & _).
      rewrite Hs. cbn [app map]. now rewrite Ht, IH.
    + clear. induction back as [|t back IH]; [reflexivity|].
      rewrite skyfield_positions_cons.
      destruct (skyfield_loop_body_one t) as (s & Hs & Ht & _).
      rewrite Hs. cbn [app map]. now rewrite Ht, IH.
Qed.

Lemma nth_error_pieces {X : Type} (xs : list X) (i : nat) (x : X) :
  nth_error xs i = Some x ->
  xs = firstn i xs ++ x :: skipn (Datatypes.S i) xs
  /\ List.length (firstn i xs) = i.
Proof.
  intros Hi.
  destruct (nth_error_split xs i Hi) as (front & back & -> & Hlen).
  subst i. split.
  - replace (List.length front) with (List.length front + 0)%nat at 1 by lia.
    rewrite firstn_app_2. cbn [firstn]. rewrite app_nil_r.
    rewrite skipn_app.
    rewrite skipn_all2 by lia.
    replace (Datatypes.S (List.length front) - List.length front)%nat
      with 1%nat by lia.
    reflexivity.
  - rewrite firstn_app, Nat.sub_diag. cbn [firstn]. rewrite app_nil_r.
    rewrite firstn_all. reflexivity.
Qed.

Lemma total_seconds_of_step (start : datetime) (step_seconds : Z) (i : nat) :
  (total_seconds
     (sub (add start (timedelta_seconds (Z.of_nat (Datatypes.S i) * step_seconds)))
          (add start (timedelta_seconds (Z.of_nat i * step_seconds))))
   == inject_Z step_seconds)%Q.
Proof.
  unfold total_seconds, sub, add, timedelta_seconds.
  replace (start + Z.of_nat (Datatypes.S i) * step_seconds * us_per_second
           - (start + Z.of_nat i * step_seconds * us_per_second))
    with (step_seconds * us_per_second)
    by (rewrite Nat2Z.inj_succ; unfold us_per_second; lia).
  rewrite inject_Z_mult. field. unfold us_per_second. discriminate.
Qed.

(** C5, amended. On a grid of positive step, python-sgp4 gives the sample
    of a time step a range rate of 0 when the step is the last one of the
    grid or when the propagation at the next step fails, and otherwise
    the range at the next step minus its own range, divided by the step
    in seconds.  python-skyfield gives every sample, the last one of the
    grid included, the range one second later minus its own range. *)
Theorem C5_range_rate (satellite : Sgp4.Satrec) (observer_ecef : vec3)
    (observer_lat observer_lon : Q) (start : datetime) (step_seconds : Z)
    (n i : nat) :
  0 < step_seconds ->
  (i < n)%nat ->
  let times := grid start step_seconds n in
  let dt := add start (timedelta_seconds (Z.of_nat i * step_seconds)) in
  let dt_next :=
    add start (timedelta_seconds (Z.of_nat (Datatypes.S i) * step_seconds)) in
  propagation_ok satellite dt = true ->
  (exists before s after,
      Sgp4._calculate_positions satellite observer_ecef times
        observer_lat observer_lon = Ok (before ++ s :: after)
      /\ map time before = filter (propagation_ok satellite) (firstn i times)
      /\ map time after
         = filter (propagation_ok satellite) (skipn (Datatypes.S i) times)
      /\ time s = dt
      /\ range s = range_at satellite observer_ecef dt
      /\ (Datatypes.S i = n -> (rangeRate s == 0)%Q)
      /\ ((Datatypes.S i < n)%nat -> propagation_ok satellite dt_next = false ->
          (rangeRate s == 0)%Q)
      /\ ((Datatypes.S i < n)%nat -> propagation_ok satellite dt_next = true ->
          (rangeRate s
           == (range_at satellite observer_ecef dt_next - range s)
              / inject_Z step_seconds)%Q))
  /\ (exists s,
        nth_error (Skyfield._calculate_positions times) i = Some s
        /\ time s = dt
        /\ rangeRate s
           = (Skyfield.distance_km
                (Skyfield.difference_at
                   (Skyfield.ts_utc (year dt) (month dt) (day dt)
                                    (hour dt) (minute dt) (second dt + 1)))
              - snd (Skyfield.altaz
                       (Skyfield.difference_at
                          (Skyfield.ts_utc (year dt) (month dt) (day dt)
                                           (hour dt) (minute dt) (second dt)))))%Q).
Proof.
  intros Hstep Hi. cbv zeta. intros Hok.
  pose proof (grid_nth start step_seconds n i Hi) as Hnth.
  split.
  - destruct (nth_error_pieces _ _ _ Hnth) as [Hpieces Hlen].
    set (times := grid start step_seconds n) in *.
    set (dt := add start (timedelta_seconds (Z.of_nat i * step_seconds))) in *.
    pose proof (steps_split satellite observer_ecef observer_lat observer_lon
                            (firstn i times) dt (skipn (Datatypes.S i) times))
      as Hsplit.
    cbv zeta in Hsplit. rewrite <- Hpieces, Hlen in Hsplit.
    rewrite calculate_positions_steps, Hsplit.
    unfold step_samples at 2. rewrite Hok.
    destruct (Sgp4._ecef_to_azel _ _ _) as [az el].
    eexists. eexists. eexists. split; [reflexivity|].
    split; [apply step_samples_times|]. split; [apply step_samples_times|].
    cbn [time range rangeRate].
    split; [reflexivity|]. split; [reflexivity|].
    split; [|split].
    + intros Hlast.
      assert (Hnone : nth_error times (Datatypes.S i) = None).
      { apply nth_error_None. subst times. rewrite grid_length. lia. }
      rewrite Hnone. reflexivity.
    + intros Hmore Hfail. subst times.
      rewrite (grid_nth start step_seconds n (Datatypes.S i) Hmore).
      cbn [lookahead_rate]. rewrite Hfail. reflexivity.
    + intros Hmore Hnext. subst times.
      rewrite (grid_nth start step_seconds n (Datatypes.S i) Hmore).
      cbn [lookahead_rate]. rewrite Hnext.
      pose proof (total_seconds_of_step start step_seconds i) as Hdiff.
      fold dt in Hdiff.
      assert (Hpos : Qgtb (total_seconds
                (sub (add start (timedelta_seconds
                                   (Z.of_nat (Datatypes.S i) * step_seconds))) dt)) 0
                     = true).
      { apply Qgtb_true. rewrite Hdiff.
        change 0%Q with (inject_Z 0). rewrite <- Zlt_Qlt. exact Hstep. }
      rewrite Hpos. rewrite Hdiff. reflexivity.
  - destruct (skyfield_positions_nth _ _ _ Hnth) as (s & Hs & Hbody).
    destruct (skyfield_loop_body_one
                (add start (timedelta_seconds (Z.of_nat i * step_seconds))))
      as (s' & Hbody' & Htime & Hrate & _).
    exists s. split; [exact Hs|].
    assert (s = s') by congruence. subst s'. split; assumption.
Qed.

(** The geodetic to Earth-fixed conversion as the design describes it,
    for an ellipsoid of equatorial radius [a] and flattening [f]. *)
Definition geodeticToEarthFixed (a f : Q) (lat_deg lon_deg alt_km : Q) : vec3 :=
  let lat := radians lat_deg in
  let lon := radians lon_deg in
  let e2 := (2 * f - f ^ 2)%Q in
  let N := (a / sqrt (1 - e2 * sin lat ^ 2))%Q in
  ((N + alt_km) * cos lat * cos lon,
   (N + alt_km) * cos lat * sin lon,
   (N * (1 - e2) + alt_km) * sin lat)%Q.

(** C8, amended. In python-sgp4 the altitude of every sample is the norm
    of the satellite's Earth-fixed position minus 6378.137 km, the
    equatorial radius [_geodetic_to_ecef] uses; in python-skyfield it is
    the geocentric distance minus 6371.0 km. *)
Theorem C8_satellite_altitude (satellite : Sgp4.Satrec) (observer_ecef : vec3)
    (observer_lat observer_lon : Q) (times : list datetime) :
  (exists positions,
      Sgp4._calculate_positions satellite observer_ecef times
        observer_lat observer_lon = Ok positions
      /\ forall s, In s positions ->
           altitude s = (norm (ecef_at satellite (time s)) - 6378.137)%Q)
  /\ (forall lat_deg lon_deg alt_km,
        Sgp4._geodetic_to_ecef lat_deg lon_deg alt_km
        = geodeticToEarthFixed 6378.137 Sgp4.EARTH_FLATTENING lat_deg lon_deg alt_km)
  /\ (forall s, In s (Skyfield._calculate_positions times) ->
        altitude s
        = (Skyfield.distance_km
             (Skyfield.satellite_at
                (Skyfield.ts_utc (year (time s)) (month (time s)) (day (time s))
                                 (hour (time s)) (minute (time s)) (second (time s))))
           - 6371.0)%Q).
Proof.
  split; [|split].
  - eexists. split; [apply calculate_positions_steps|].
    intros s Hs. apply in_flat_map in Hs. destruct Hs as ([i dt] & _ & Hs).
    unfold step_samples in Hs.
    destruct (propagation_ok satellite dt); [|destruct Hs].
    destruct (Sgp4._ecef_to_azel _ _ _) as [az el].
    destruct Hs as [<- | []]. reflexivity.
  - reflexivity.
  - induction times as [|dt rest IH]; intros s Hs.
    + destruct Hs.
    + rewrite skyfield_positions_cons in Hs.
      destruct (skyfield_loop_body_one dt) as (s0 & Hs0 & Ht & _ & Halt).
      rewrite Hs0 in Hs. destruct Hs as [<- | Hs].
      * rewrite Ht. exact Halt.
      * exact (IH s Hs).
Qed.

End GeneratorClaims.

(* ================================================================== *)
(** * Runs on the scripted collaborators *)
(* ================================================================== *)

Module Fixtures.

Import Scripted Sgp4Steps.

(** 2024-01-01T00:00:00Z and the two following minutes. *)
Definition t0 : datetime := make 2024 1 1 0 0 0 0.
Definition t1 : datetime := add t0 (timedelta_seconds 60).
Definition t2 : datetime := add t0 (timedelta_seconds 120).

(** A satellite whose propagation fails at 00:01:00 only. *)
Definition failing_at_t1 : list Q := [1 # 1440]%Q.

(** A satellite whose propagation never fails. *)
Definition sound : list Q := [].

Definition observer : vec3 := (6378, 0, 0)%Q.

End Fixtures.

Import Scripted Sgp4Steps Fixtures.

Lemma C4_witness :
  (exists before after,
      @Sgp4._calculate_positions scripted_math scripted_sgp4_api
         failing_at_t1 observer ([t0] ++ t1 :: [t2]) 0 0
      = Ok (before ++ after)
      /\ map time before = [t0]
      /\ map time after = [t2]
      /\ (positions <- @Sgp4._calculate_positions scripted_math scripted_sgp4_api
                         failing_at_t1 observer ([t0] ++ t1 :: [t2]) 0 0 ;;
          _find_visibility_windows positions ([t0] ++ t1 :: [t2]) 10)
         = _find_visibility_windows (before ++ after) [] 10)
  /\ (exists before s after,
        @Skyfield._calculate_positions scripted_skyfield_failing ([t0] ++ t1 :: [t2])
        = before ++ s :: after
        /\ map time before = [t0]
        /\ time s = t1
        /\ map time after = [t2]).
Proof.
  destruct (@C4_failed_step_per_calculator scripted_math scripted_sgp4_api
              scripted_skyfield_failing failing_at_t1 observer 0%Q 0%Q
              [t0] t1 [t2] 10%Q "mean motion is out of range"%string)
    as [Hsgp4 Hsky].
  split.
  - destruct Hsgp4 as (before & after & Hcalc & _ & _ & Hb & Ha & _ & Hseg).
    + vm_compute. reflexivity.
    + exists before, after.
      split; [exact Hcalc|]. split; [exact Hb|]. split; [exact Ha | exact Hseg].
  - apply Hsky. vm_compute. reflexivity.
Defined.

(** C4, as stated, fails on python-skyfield: the propagation at 00:01:00
    reports an error, and the step still gets a sample. *)
Lemma C4_counterexample :
  @Skyfield.propagation_message scripted_skyfield_failing t1
  = Some "mean motion is out of range"%string
  /\ map time (@Skyfield._calculate_positions scripted_skyfield_failing
                 ([t0] ++ t1 :: [t2]))
     = [t0; t1; t2]
  /\ exists s,
       nth_error (@Skyfield._calculate_positions scripted_skyfield_failing
                    ([t0] ++ t1 :: [t2])) 1 = Some s
       /\ time s = t1.
Proof.
  split; [vm_compute; reflexivity|].
  split; [vm_compute; reflexivity|].
  eexists. split; vm_compute; reflexivity.
Qed.

Lemma C5_witness :
  exists before s after,
    @Sgp4._calculate_positions scripted_math scripted_sgp4_api
       sound observer (grid t0 60 3) 0 0 = Ok (before ++ s :: after)
    /\ time s = t1
    /\ (rangeRate s
        == (@range_at scripted_math scripted_sgp4_api sound observer t2 - range s)
           / inject_Z 60)%Q.
Proof.
  destruct (@C5_range_rate scripted_math scripted_sgp4_api scripted_skyfield
              sound observer 0%Q 0%Q t0 60 3%nat 1%nat)
    as [(before & s & after & Hcalc & _ & _ & Ht & _ & _ & _ & Hrate) _].
  - reflexivity.
  - repeat constructor.
  - vm_compute. reflexivity.
  - exists before, s, after.
    split; [exact Hcalc|]. split; [exact Ht|].
    apply Hrate; [repeat constructor | vm_compute; reflexivity].
Defined.

(** C5, as stated, fails on python-skyfield: the last sample of a grid of
    three times has range rate 1, not 0. *)
Lemma C5_counterexample :
  exists s,
    nth_error (@Skyfield._calculate_positions scripted_skyfield (grid t0 60 3)) 2
    = Some s
    /\ List.length (grid t0 60 3) = 3%nat
    /\ time s = t2
    /\ (rangeRate s == 1)%Q
    /\ ~ (rangeRate s == 0)%Q.
Proof.
  eexists. split; [vm_compute; reflexivity|].
  split; [reflexivity|]. split; [reflexivity|].
  split; [vm_compute; reflexivity | vm_compute; discriminate].
Qed.

(** 2024-01-01T00:02:30Z, and the last second of the year 9999. *)
Definition t2_30 : datetime := add t0 (timedelta_seconds 150).
Definition last_second : datetime := make 9999 12 31 23 59 59 0.

Lemma C6_witness :
  (forall fuel, (3 < fuel)%nat ->
      Bounded._generate_times fuel t0 t2_30 60 = Some (Ok [t0; t1; t2]))
  /\ List.length (grid t0 60 3) = 3%nat
  /\ exists final,
       nth_error (grid t0 60 3) 2 = Some final
       /\ final <= t2_30
       /\ t2_30 < add final (timedelta_seconds 60).
Proof.
  destruct (@C6_time_grid scripted_math scripted_sgp4_api scripted_skyfield
              sound observer 0%Q 0%Q t0 t2_30 60)
    as (Hgen & Hlen & _ & _ & Hfinal & _).
  - vm_compute. discriminate.
  - vm_compute. discriminate.
  - reflexivity.
  - reflexivity.
  - split; [exact Hgen|]. split; [exact Hlen | exact Hfinal].
Defined.

(** C6, as stated, fails: for [start = end] at the last second of the
    year 9999 and a step of 1 second, [current += timedelta(seconds=1)]
    raises OverflowError and no grid is returned. *)
Lemma C6_counterexample :
  last_second <= last_second
  /\ 0 < 1
  /\ Bounded._generate_times 2 last_second last_second 1 = Some (Raise OverflowError)
  /\ strftime last_second = "9999-12-31T23:59:59Z"%string.
Proof.
  split; [apply Z.le_refl|]. split; [reflexivity|].
  split; vm_compute; reflexivity.
Qed.

(** C8, as stated, fails on python-skyfield: a satellite at 7000 km from
    the Earth's centre gets the altitude 629 km, not 7000 - 6378.137. *)
Lemma C8_counterexample :
  exists s,
    @Skyfield._calculate_positions scripted_skyfield [t0] = [s]
    /\ (@Skyfield.distance_km scripted_skyfield
          (@Skyfield.satellite_at scripted_skyfield
             (@Skyfield.ts_utc scripted_skyfield (year t0) (month t0) (day t0)
                               (hour t0) (minute t0) (second t0)))
        == 7000)%Q
    /\ (altitude s == 629)%Q
    /\ ~ (altitude s == 7000 - 6378.137)%Q.
Proof.
  eexists. split; [vm_compute; reflexivity|].
  split; [vm_compute; reflexivity|].
  split; [vm_compute; reflexivity | vm_compute; discriminate].
Qed.

(* ================================================================== *)
(** * The sidereal angle ([_gmst]) *)
(* ================================================================== *)

Section SiderealAngle.

Local Open Scope Q_scope.

(** The sidereal angle as the design describes it: the polynomial in the
    Julian centuries [T] since J2000.0, plus [86400 * ratio * fr], modulo
    86400 seconds, at [2 pi / 86400] radians per second.  [ratio] is the
    coefficient of the fractional-day term. *)
Definition sidereal_angle (ratio : Q) (jd fr : Q) : Q :=
  let T := (jd - 2451545.0 + fr) / 36525 in
  py_mod (24110.54841 + 8640184.812866 * T + 0.093104 * T ^ 2 - 6.2e-6 * T ^ 3
          + 86400 * ratio * fr) 86400
  * (2 * math_pi / 86400).

Lemma py_mod_comp (x x' y y' : Q) :
  x == x' -> y == y' -> py_mod x y == py_mod x' y'.
Proof.
  intros Hx Hy. unfold py_mod.
  assert (Hq : x / y == x' / y') by (now rewrite Hx, Hy).
  rewrite (Qfloor_comp _ _ Hq), Hx, Hy. reflexivity.
Qed.

Lemma py_mod_day_range (x : Q) : 0 <= py_mod x 86400 /\ py_mod x 86400 < 86400.
Proof.
  unfold py_mod.
  pose proof (Qfloor_le (x / 86400)) as Hlo.
  pose proof (Qlt_floor (x / 86400)) as Hhi.
  rewrite inject_Z_succ in Hhi.
  assert (Hx : x == 86400 * (x / 86400)) by (field; discriminate).
  set (q := x / 86400) in *. set (f := inject_Z (Qfloor q)) in *.
  split; lra.
Qed.

(** C7, as stated, fails: at noon of J2000.0 the angle computed by
    [_gmst] is not the one given by the coefficient 1.0027379093. *)
Lemma C7_counterexample :
  ~ (Sgp4._gmst 2451545 (1 # 2) == sidereal_angle 1.0027379093 2451545 (1 # 2)).
Proof. vm_compute. discriminate. Qed.

(** C7, amended. For every Julian day [jd] and day fraction [fr], [_gmst]
    is the formula of the design with the coefficient 1.00273790935 for
    the fractional-day term, and lies in [0, 2 pi). *)
Theorem C7_gmst_formula (jd fr : Q) :
  Sgp4._gmst jd fr == sidereal_angle 1.00273790935 jd fr
  /\ 0 <= Sgp4._gmst jd fr
  /\ Sgp4._gmst jd fr < 2 * math_pi.
Proof.
  assert (Heq : Sgp4._gmst jd fr == sidereal_angle 1.00273790935 jd fr).
  { unfold Sgp4._gmst, sidereal_angle. cbv zeta.
    apply Qmult_comp.
    - apply py_mod_comp; [field; discriminate | reflexivity].
    - field. }
  split; [exact Heq|].
  unfold Sgp4._gmst. cbv zeta.
  match goal with |- context [py_mod ?x 86400.0] =>
    assert (Hm : py_mod x 86400.0 == py_mod x 86400)
      by (apply py_mod_comp; reflexivity);
    destruct (py_mod_day_range x) as [Hlo Hhi];
    set (m := py_mod x 86400) in *;
    set (m' := py_mod x 86400.0) in *
  end.
  assert (Hpi : 0 < math_pi) by reflexivity.
  assert (Hscale : m' * (2.0 * math_pi / 86400.0) == m * math_pi / 43200)
    by (rewrite Hm; field).
  rewrite Hscale.
  split.
  - apply Qle_shift_div_l; [reflexivity|]. rewrite Qmult_0_l.
    apply Qmult_le_0_compat; [exact Hlo | now apply Qlt_le_weak].
  - apply Qlt_shift_div_r; [reflexivity|].
    setoid_replace (2 * math_pi * 43200) with (86400 * math_pi) by ring.
    apply Qmult_lt_compat_r; assumption.
Qed.

End SiderealAngle.

(* ================================================================== *)
(** * Further properties of the window segmenter *)
(* ================================================================== *)

Lemma last_map {X Y : Type} (g : X -> Y) (xs : list X) :
  forall d, last (map g xs) (g d) = g (last xs d).
Proof.
  induction xs as [|x xs IH]; intros d; [reflexivity|].
  cbn [map]. destruct xs as [|y xs]; [reflexivity|].
  specialize (IH d). cbn [map last] in *. exact IH.
Qed.

Section SegmenterProperties.

Variable min_elevation : Q.

(** The test [pos['elevation'] >= min_elevation]. *)
Definition visible (s : Position) : bool := Qgeb (elevation s) min_elevation.

Lemma segment_concat (ps : list Position) :
  forall cur,
    List.concat (map samples_of (segment min_elevation cur ps))
    = open_samples cur ++ filter visible ps.
Proof.
  induction ps as [|p ps IH]; intros cur; cbn [segment filter].
  - destruct cur as [r|]; cbn [map List.concat open_samples]; now rewrite ?app_nil_r.
  - unfold visible at 1. destruct (Qgeb (elevation p) min_elevation).
    + rewrite IH. cbn [open_samples]. rewrite open_samples_extend.
      now rewrite <- app_assoc.
    + destruct cur as [r|]; cbn [map List.concat open_samples]; now rewrite IH.
Qed.

(** X1. The points of the emitted windows, taken in order, are exactly
    the samples at or above the threshold, in order: every such sample is
    in one window and no other sample is in any. *)
Theorem X1_windows_partition_visible_samples (positions : list Position)
    (times : list datetime) :
  exists ws,
    _find_visibility_windows positions times min_elevation = Ok ws
    /\ List.concat (map points ws) = map point_of (filter visible positions).
Proof.
  eexists. split; [apply find_visibility_windows_runs|].
  pose proof (segment_concat positions None) as Hcat.
  cbn [open_samples app] in Hcat.
  rewrite <- Hcat, concat_map, !map_map. reflexivity.
Qed.

(** The sample before a block and the sample after it. *)
Definition closed_before (front : list Position) : Prop :=
  front = [] \/ exists front' b, front = front' ++ [b]
                                 /\ (elevation b < min_elevation)%Q.

Definition closed_after (back : list Position) : Prop :=
  back = [] \/ exists b back', back = b :: back'
                               /\ (elevation b < min_elevation)%Q.

Lemma segment_maximal (ps : list Position) :
  forall (cur : option run) (r : run),
    In r (segment min_elevation cur ps) ->
    exists front back,
      open_samples cur ++ ps = front ++ samples_of r ++ back
      /\ (cur = None -> closed_before front)
      /\ (forall r0, cur = Some r0 -> front = [] \/ closed_before front /\ front <> [])
      /\ closed_after back.
Proof.
  induction ps as [|p ps IH]; intros cur r Hin; cbn [segment] in Hin.
  - destruct cur as [r0|]; cbn [In] in Hin; [|contradiction].
    destruct Hin as [<- | []].
    exists [], []. cbn [open_samples app].
    split; [reflexivity|]. split; [discriminate|].
    split; [intros; now left | now left].
  - destruct (Qgeb (elevation p) min_elevation) eqn:Hvis.
    + destruct (IH (Some (extend cur p)) r Hin)
        as (front & back & Heq & _ & Hfront & Hback).
      exists front, back.
      cbn [open_samples] in Heq. rewrite open_samples_extend in Heq.
      split; [rewrite <- Heq, <- app_assoc; reflexivity|].
      destruct (Hfront _ eq_refl) as [-> | [Hc Hne]].
      * split; [intros; now left|]. split; [intros; now left | exact Hback].
      * split; [intros; exact Hc|]. split; [intros; right; now split | exact Hback].
    + apply Qgeb_false in Hvis.
      assert (Hrest : In r (segment min_elevation None ps) ->
                exists front back,
                  open_samples cur ++ p :: ps = front ++ samples_of r ++ back
                  /\ (cur = None -> closed_before front)
                  /\ (forall r0, cur = Some r0 ->
                                 front = [] \/ closed_before front /\ front <> [])
                  /\ closed_after back).
      { intros Hin'.
        destruct (IH None r Hin') as (front & back & Heq & Hfront & _ & Hback).
        exists (open_samples cur ++ p :: front), back.
        cbn [open_samples app] in Heq.
        split; [rewrite Heq, <- app_assoc; reflexivity|].
        assert (Hclosed : closed_before (open_samples cur ++ p :: front)).
        { destruct (Hfront eq_refl) as [-> | (front' & b & -> & Hb)].
          - right. exists (open_samples cur), p. split; [reflexivity | exact Hvis].
          - right. exists (open_samples cur ++ p :: front'), b.
            split; [now rewrite <- app_assoc | exact Hb]. }
        split; [intros; exact Hclosed|].
        split; [|exact Hback].
        intros r0 _. right. split; [exact Hclosed|].
        intros Hnil. apply app_eq_nil in Hnil. destruct Hnil as [_ Hnil].
        discriminate. }
      destruct cur as [r0|]; [|exact (Hrest Hin)].
      destruct Hin as [<- | Hin]; [|exact (Hrest Hin)].
      exists [], (p :: ps). cbn [open_samples app].
      split; [reflexivity|]. split; [discriminate|].
      split; [intros; now left|].
      right. exists p, ps. split; [reflexivity | exact Hvis].
Qed.

(** X2. Every emitted window is a maximal block: its points come from a
    non-empty block of consecutive samples at or above the threshold, the
    sample just before the block (if any) and the sample just after it
    (if any) being below the threshold. *)
Theorem X2_windows_are_maximal_blocks (positions : list Position)
    (times : list datetime) :
  exists ws,
    _find_visibility_windows positions times min_elevation = Ok ws
    /\ forall w, In w ws ->
       exists front block back,
         positions = front ++ block ++ back
         /\ block <> []
         /\ points w = map point_of block
         /\ Forall (fun s => (min_elevation <= elevation s)%Q) block
         /\ closed_before front
         /\ closed_after back.
Proof.
  eexists. split; [apply find_visibility_windows_runs|].
  intros w Hw. apply in_map_iff in Hw. destruct Hw as (r & <- & Hr).
  destruct (segment_maximal positions None r Hr)
    as (front & back & Heq & Hfront & _ & Hback).
  destruct (segment_blocks min_elevation positions None r (Forall_nil _) Hr)
    as [_ Hall].
  exists front, (samples_of r), back. cbn [open_samples app] in Heq.
  split; [exact Heq|]. split; [discriminate|]. split; [reflexivity|].
  split; [exact Hall|]. split; [exact (Hfront eq_refl) | exact Hback].
Qed.

(** X3. Every emitted window has at least one point; its start is the
    time of its first point and its end the time of its last point. *)
Theorem X3_window_spans_its_points (positions : list Position)
    (times : list datetime) :
  exists ws,
    _find_visibility_windows positions times min_elevation = Ok ws
    /\ forall w, In w ws ->
       exists p rest,
         points w = p :: rest
         /\ w_start w = pt_time p
         /\ w_end w = pt_time (last rest p).
Proof.
  eexists. split; [apply find_visibility_windows_runs|].
  intros w Hw. apply in_map_iff in Hw. destruct Hw as ([f rest] & <- & _).
  exists (point_of f), (map point_of rest).
  unfold window_of_run, samples_of, first_of, last_of.
  cbn [points w_start w_end fst snd map].
  split; [reflexivity|]. split; [reflexivity|].
  now rewrite last_map.
Qed.

Lemma segment_across_gap (low : Position) (a b : list Position) :
  (elevation low < min_elevation)%Q ->
  forall cur,
    segment min_elevation cur (a ++ low :: b)
    = segment min_elevation cur a ++ segment min_elevation None b.
Proof.
  intros Hlow. apply Qgeb_false in Hlow.
  induction a as [|p a IH]; intros cur; cbn [app segment].
  - rewrite Hlow. destruct cur; reflexivity.
  - destruct (Qgeb (elevation p) min_elevation); [apply IH|].
    destruct cur; rewrite IH; reflexivity.
Qed.

(** X4. A sample below the threshold separates the scan: the windows of
    [a ++ low :: b] are the windows of [a] followed by the windows of
    [b]. *)
Theorem X4_segmentation_splits_at_gap (a b : list Position) (low : Position)
    (times : list datetime) :
  (elevation low < min_elevation)%Q ->
  exists wa wb,
    _find_visibility_windows a times min_elevation = Ok wa
    /\ _find_visibility_windows b times min_elevation = Ok wb
    /\ _find_visibility_windows (a ++ low :: b) times min_elevation = Ok (wa ++ wb).
Proof.
  intros Hlow. eexists. eexists.
  split; [apply find_visibility_windows_runs|].
  split; [apply find_visibility_windows_runs|].
  rewrite find_visibility_windows_runs, (segment_across_gap low a b Hlow), map_app.
  reflexivity.
Qed.

(** X5. When the last sample is at or above the threshold, the scan ends
    inside a window: the last emitted window ends at the time of the
    last sample, which is its last point. *)
Theorem X5_open_window_closed_at_last_sample (front : list Position)
    (s : Position) (times : list datetime) :
  (min_elevation <= elevation s)%Q ->
  exists ws w p rest,
    _find_visibility_windows (front ++ [s]) times min_elevation = Ok (ws ++ [w])
    /\ w_end w = strftime (time s)
    /\ points w = p :: rest
    /\ last rest p = point_of s.
Proof.
  intros Hvis. apply Qgeb_true in Hvis.
  assert (Hseg : forall cur, exists rs r,
             segment min_elevation cur (front ++ [s]) = rs ++ [r]
             /\ last_of r = s).
  { induction front as [|p front' IH]; intros cur; cbn [app segment].
    - rewrite Hvis. exists [], (extend cur s).
      split; [reflexivity | apply last_of_extend].
    - destruct (Qgeb (elevation p) min_elevation); [apply IH|].
      destruct cur as [r0|]; [|apply IH].
      destruct (IH None) as (rs & r & -> & Hlast).
      exists (r0 :: rs), r. split; [reflexivity | exact Hlast]. }
  destruct (Hseg None) as (rs & [f rest] & Heq & Hlast).
  exists (map window_of_run rs), (window_of_run (f, rest)),
         (point_of f), (map point_of rest).
  split; [rewrite find_visibility_windows_runs, Heq, map_app; reflexivity|].
  unfold window_of_run. cbn [w_end points samples_of fst snd map].
  rewrite Hlast. split; [reflexivity|]. split; [reflexivity|].
  unfold last_of in Hlast. cbn [fst snd] in Hlast. rewrite <- Hlast.
  apply last_map.
Qed.

End SegmenterProperties.

(** ** The peak among the emitted points, and the duration *)

Lemma round_half_even_bounds (q : Q) :
  Qfloor q <= round_half_even q <= Qfloor q + 1.
Proof.
  unfold round_half_even.
  destruct (Qcompare (q - inject_Z (Qfloor q)) (1 # 2)); [|lia|lia].
  destruct (Z.even (Qfloor q)); lia.
Qed.

Lemma Qcompare_cases (p q : Q) :
  match Qcompare p q with
  | Eq => (p == q)%Q
  | Lt => (p < q)%Q
  | Gt => (q < p)%Q
  end.
Proof.
  destruct (Qcompare p q) eqn:Hc.
  - now apply Qeq_alt.
  - now apply Qlt_alt.
  - now apply Qgt_alt.
Qed.

Lemma round_half_even_mono (x y : Q) :
  (x <= y)%Q -> round_half_even x <= round_half_even y.
Proof.
  intros Hxy. pose proof (Qfloor_resp_le x y Hxy) as Hf.
  destruct (Z.eq_dec (Qfloor x) (Qfloor y)) as [Heq | Hne].
  - unfold round_half_even. rewrite Heq.
    pose proof (Qcompare_cases (x - inject_Z (Qfloor y)) (1 # 2)) as Hx.
    pose proof (Qcompare_cases (y - inject_Z (Qfloor y)) (1 # 2)) as Hy.
    destruct (Qcompare (x - inject_Z (Qfloor y)) (1 # 2));
      destruct (Qcompare (y - inject_Z (Qfloor y)) (1 # 2));
      try (exfalso; lra);
      destruct (Z.even (Qfloor y)); lia.
  - pose proof (round_half_even_bounds x). pose proof (round_half_even_bounds y). lia.
Qed.

Lemma pow10_pos (ndigits : nat) : (0 < pow10 ndigits)%Q.
Proof.
  unfold pow10. change 0%Q with (inject_Z 0). rewrite <- Zlt_Qlt.
  apply Z.pow_pos_nonneg; lia.
Qed.

(** [round] is monotone. *)
Lemma py_round_mono (x y : Q) (ndigits : nat) :
  (x <= y)%Q -> (py_round x ndigits <= py_round y ndigits)%Q.
Proof.
  intros Hxy. unfold py_round. rewrite !Qred_correct.
  pose proof (pow10_pos ndigits) as Hp.
  apply Qmult_le_compat_r.
  - rewrite <- Zle_Qle. apply round_half_even_mono.
    apply Qmult_le_compat_r; [exact Hxy | now apply Qlt_le_weak].
  - apply Qlt_le_weak. now apply Qinv_lt_0_compat.
Qed.

(** X6. In every emitted window, maxElevation is the largest elevation
    among the emitted (rounded) points: no point exceeds it, and one
    point has exactly that elevation, at the time maxElevationTime. *)
Theorem X6_peak_dominates_points (positions : list Position)
    (times : list datetime) (min_elevation : Q) :
  exists ws,
    _find_visibility_windows positions times min_elevation = Ok ws
    /\ forall w, In w ws ->
       (forall pt, In pt (points w) -> (pt_elevation pt <= maxElevation w)%Q)
       /\ (exists pt, In pt (points w)
                      /\ pt_elevation pt = maxElevation w
                      /\ pt_time pt = maxElevationTime w).
Proof.
  eexists. split; [apply find_visibility_windows_runs|].
  intros w Hw. apply in_map_iff in Hw. destruct Hw as (r & <- & _).
  destruct (peak_first_maximum (fst r) (snd r)) as (before & after & Hsplit & Hb & Ha).
  fold (peak_of r) in *. fold (samples_of r) in Hsplit.
  unfold window_of_run. cbn [points maxElevation maxElevationTime].
  split.
  - intros pt Hpt. apply in_map_iff in Hpt. destruct Hpt as (s & <- & Hs).
    cbn [point_of pt_elevation]. apply py_round_mono.
    rewrite Hsplit in Hs. apply in_app_or in Hs. destruct Hs as [Hs | [<- | Hs]].
    + apply Qlt_le_weak. exact (proj1 (Forall_forall _ _) Hb s Hs).
    + apply Qle_refl.
    + exact (proj1 (Forall_forall _ _) Ha s Hs).
  - exists (point_of (peak_of r)). split; [|split; reflexivity].
    apply in_map. rewrite Hsplit. apply in_or_app. right. now left.
Qed.

Lemma StronglySorted_app_r {X : Type} (R : X -> X -> Prop) (a b : list X) :
  StronglySorted R (a ++ b) -> StronglySorted R b.
Proof.
  induction a as [|x a IH]; intros H; [exact H|].
  apply IH. cbn [app] in H. now apply StronglySorted_inv in H.
Qed.

Lemma StronglySorted_app_l {X : Type} (R : X -> X -> Prop) (a b : list X) :
  StronglySorted R (a ++ b) -> StronglySorted R a.
Proof.
  induction a as [|x a IH]; intros H; [constructor|].
  cbn [app] in H. apply StronglySorted_inv in H. destruct H as [Hs Hall].
  constructor; [now apply IH|].
  apply Forall_app in Hall. tauto.
Qed.

Lemma py_round_nonneg (x : Q) (ndigits : nat) :
  (0 <= x)%Q -> (0 <= py_round x ndigits)%Q.
Proof.
  intros Hx.
  assert (Hzero : (py_round 0 ndigits == 0)%Q).
  { unfold py_round. rewrite Qred_correct.
    rewrite (round_half_even_comp (0 * pow10 ndigits) 0) by apply Qmult_0_l.
    apply Qmult_0_l. }
  rewrite <- Hzero. now apply py_round_mono.
Qed.

(** The samples are in time order (equal times allowed). *)
Definition time_ordered (positions : list Position) : Prop :=
  StronglySorted (fun a b => time a <= time b) positions.

Lemma run_duration_nonneg (positions : list Position) (min_elevation : Q)
    (r : run) :
  time_ordered positions ->
  In r (segment min_elevation None positions) ->
  (0 <= duration (window_of_run r))%Q.
Proof.
  intros Hsorted Hr.
  destruct (segment_blocks min_elevation positions None r (Forall_nil _) Hr)
    as [(front & back & Hpos) _].
  cbn [open_samples app] in Hpos. unfold time_ordered in Hsorted.
  rewrite Hpos in Hsorted.
  apply StronglySorted_app_r, StronglySorted_app_l in Hsorted.
  unfold samples_of in Hsorted. apply StronglySorted_inv in Hsorted.
  destruct Hsorted as [_ Hall].
  assert (Hle : time (first_of r) <= time (last_of r)).
  { unfold first_of, last_of. destruct (snd r) as [|x rest] eqn:Hrest.
    - cbn [last]. lia.
    - apply (proj1 (Forall_forall _ _) Hall).
      rewrite <- Hrest at 2.
      destruct (exists_last (l := snd r)) as (front' & z & Hz);
        [rewrite Hrest; discriminate|].
      rewrite <- Hrest, Hz, last_last. apply in_or_app. right. now left. }
  unfold window_of_run. cbn [duration]. apply py_round_nonneg.
  unfold total_seconds, sub.
  apply Qle_shift_div_l; [reflexivity|]. rewrite Qmult_0_l.
  change 0%Q with (inject_Z 0). rewrite <- Zle_Qle. lia.
Qed.

(** X7. For samples in time order, every emitted window has a duration
    that is not negative. *)
Theorem X7_duration_not_negative (positions : list Position)
    (times : list datetime) (min_elevation : Q) :
  time_ordered positions ->
  exists ws,
    _find_visibility_windows positions times min_elevation = Ok ws
    /\ forall w, In w ws -> (0 <= duration w)%Q.
Proof.
  intros Hsorted. eexists. split; [apply find_visibility_windows_runs|].
  intros w Hw. apply in_map_iff in Hw. destruct Hw as (r & <- & Hr).
  now apply (run_duration_nonneg positions min_elevation).
Qed.

(* ================================================================== *)
(** * Further properties of the time grid and the sample generators *)
(* ================================================================== *)

Lemma generate_times_loop_spins (end_ : datetime) (fuel : nat) :
  forall (times : list datetime) (current : datetime),
    current <= end_ ->
    generate_times_loop fuel times current end_ 0 = None.
Proof.
  induction fuel as [|fuel IH]; intros times current Hle; [reflexivity|].
  cbn [generate_times_loop]. unfold leb.
  destruct (Z.leb_spec current end_) as [_ | Hgt]; [|lia].
  apply IH. unfold add, timedelta_seconds. lia.
Qed.

(** X8. With a step of 0 seconds and [start <= end] the loop of
    [_generate_times] never ends: no amount of fuel yields a grid. *)
Theorem X8_zero_step_never_returns (start end_ : datetime) (fuel : nat) :
  start <= end_ ->
  _generate_times fuel start end_ 0 = None.
Proof.
  intros Hle. unfold _generate_times. now apply generate_times_loop_spins.
Qed.

Lemma grid_lower_bound (step_seconds : Z) (n : nat) (start t : datetime) :
  0 < step_seconds -> In t (grid start step_seconds n) -> start <= t.
Proof.
  intros Hstep Hin. unfold grid in Hin. apply in_map_iff in Hin.
  destruct Hin as (k & <- & _). unfold add, timedelta_seconds, us_per_second. nia.
Qed.

Lemma grid_increasing (step_seconds : Z) (n : nat) :
  0 < step_seconds ->
  forall start, StronglySorted Z.lt (grid start step_seconds n).
Proof.
  intros Hstep. induction n as [|n IH]; intros start.
  - constructor.
  - rewrite grid_succ. constructor; [apply IH|].
    apply Forall_forall. intros t Ht.
    apply (grid_lower_bound step_seconds n _ t Hstep) in Ht.
    unfold add, timedelta_seconds, us_per_second in Ht. lia.
Qed.

Lemma StronglySorted_filter {X : Type} (R : X -> X -> Prop) (keep : X -> bool)
    (xs : list X) :
  StronglySorted R xs -> StronglySorted R (filter keep xs).
Proof.
  induction 1 as [|x xs Hs IH Hall]; cbn [filter]; [constructor|].
  destruct (keep x); [|exact IH].
  constructor; [exact IH|].
  apply Forall_forall. intros y Hy. apply filter_In in Hy.
  exact (proj1 (Forall_forall _ _) Hall y (proj1 Hy)).
Qed.

Lemma time_ordered_of_increasing (positions : list Position) :
  StronglySorted Z.lt (map time positions) -> time_ordered positions.
Proof.
  unfold time_ordered. induction positions as [|p ps IH]; intros H; [constructor|].
  cbn [map] in H. apply StronglySorted_inv in H. destruct H as [Hs Hall].
  constructor; [now apply IH|].
  apply Forall_forall. intros q Hq.
  apply Z.lt_le_incl.
  exact (proj1 (Forall_forall _ _) Hall (time q) (in_map time ps q Hq)).
Qed.

Section GeneratorProperties.

Context {M : MathLib} {A : Sgp4.Sgp4Api} {S : Skyfield.SkyfieldApi}.
Import Sgp4Steps.

Variable satellite : Sgp4.Satrec.
Variable observer_ecef : vec3.
Variables observer_lat observer_lon : Q.

Lemma skyfield_positions_times (times : list datetime) :
  map time (Skyfield._calculate_positions times) = times.
Proof.
  induction times as [|dt times IH]; [reflexivity|].
  rewrite skyfield_positions_cons.
  destruct (skyfield_loop_body_one dt) as (s & Hs & Ht & _).
  rewrite Hs. cbn [app map]. now rewrite Ht, IH.
Qed.

(** X9. python-sgp4 returns, without raising, exactly one sample for each
    time at which the propagation succeeds, in the order of the times;
    python-skyfield returns exactly one sample for each time. *)
Theorem X9_one_sample_per_propagated_time (times : list datetime) :
  (exists positions,
      Sgp4._calculate_positions satellite observer_ecef times
        observer_lat observer_lon = Ok positions
      /\ map time positions = filter (propagation_ok satellite) times)
  /\ map time (Skyfield._calculate_positions times) = times.
Proof.
  split; [|apply skyfield_positions_times].
  eexists. split; [apply calculate_positions_steps|].
  apply step_samples_times.
Qed.

(** X10. When the time that follows a sample in [times] is not later
    than the sample's own time, python-sgp4 reports a range rate of 0
    for it instead of dividing by the elapsed time. *)
Theorem X10_no_division_by_nonpositive_time (front : list datetime)
    (dt dt_next : datetime) (back : list datetime) :
  propagation_ok satellite dt = true ->
  dt_next <= dt ->
  exists before s after,
    Sgp4._calculate_positions satellite observer_ecef
      (front ++ dt :: dt_next :: back) observer_lat observer_lon
    = Ok (before ++ s :: after)
    /\ map time before = filter (propagation_ok satellite) front
    /\ time s = dt
    /\ (rangeRate s == 0)%Q.
Proof.
  intros Hok Hle.
  pose proof (steps_split satellite observer_ecef observer_lat observer_lon
                          front dt (dt_next :: back)) as Hsplit.
  cbv zeta in Hsplit.
  rewrite calculate_positions_steps, Hsplit.
  unfold step_samples at 2. rewrite Hok.
  destruct (Sgp4._ecef_to_azel _ _ _) as [az el].
  eexists. eexists. eexists. split; [reflexivity|].
  split; [apply step_samples_times|].
  cbn [time rangeRate]. split; [reflexivity|].
  assert (Hnext : nth_error (front ++ dt :: dt_next :: back)
                            (Datatypes.S (List.length front)) = Some dt_next).
  { rewrite nth_error_app2 by lia.
    replace (Datatypes.S (List.length front) - List.length front)%nat
      with 1%nat by lia.
    reflexivity. }
  rewrite Hnext. cbn [lookahead_rate].
  destruct (propagation_ok satellite dt_next); [|reflexivity].
  assert (Hneg : Qgtb (total_seconds (sub dt_next dt)) 0 = false).
  { apply Qgtb_false. unfold total_seconds, sub.
    apply Qle_shift_div_r; [reflexivity|]. rewrite Qmult_0_l.
    change 0%Q with (inject_Z 0). rewrite <- Zle_Qle. lia. }
  rewrite Hneg. reflexivity.
Qed.

(** X11. On a grid of positive step the samples of both calculators are
    in strictly increasing time order, as the segmenter assumes. *)
Theorem X11_samples_in_time_order (start : datetime) (step_seconds : Z) (n : nat) :
  0 < step_seconds ->
  (exists positions,
      Sgp4._calculate_positions satellite observer_ecef
        (grid start step_seconds n) observer_lat observer_lon = Ok positions
      /\ StronglySorted Z.lt (map time positions))
  /\ StronglySorted Z.lt
       (map time (Skyfield._calculate_positions (grid start step_seconds n))).
Proof.
  intros Hstep. split.
  - eexists. split; [apply calculate_positions_steps|].
    unfold enumerate. rewrite step_samples_times.
    apply StronglySorted_filter. now apply grid_increasing.
  - rewrite skyfield_positions_times. now apply grid_increasing.
Qed.

(** X12. When [end] is before [start] the grid is empty and both
    calculators return no window, whatever the step. *)
Theorem X12_end_before_start_gives_no_window (fuel : nat)
    (latitude longitude altitude_m : Q) (start end_ : datetime)
    (step_seconds : Z) (min_elevation : Q) :
  end_ < start ->
  _generate_times (Datatypes.S fuel) start end_ step_seconds = Some []
  /\ Sgp4.calculate (Datatypes.S fuel) satellite latitude longitude altitude_m
       start end_ step_seconds min_elevation = Some (Ok [])
  /\ Skyfield.calculate (Datatypes.S fuel) start end_ step_seconds min_elevation
     = Some (Ok []).
Proof.
  intros Hlt.
  assert (Hgrid : _generate_times (Datatypes.S fuel) start end_ step_seconds = Some []).
  { unfold _generate_times. cbn [generate_times_loop]. unfold leb.
    destruct (Z.leb_spec start end_) as [Hle | _]; [lia | reflexivity]. }
  split; [exact Hgrid|].
  unfold Sgp4.calculate, Skyfield.calculate. rewrite Hgrid. split; reflexivity.
Qed.

(** X13. For a [datetime] [start <= end], a [datetime] [end] and a
    positive step: when the step is a [timedelta] and the first time
    after [end] is still a [datetime], both calculators end without
    raising once the fuel exceeds the number of grid times, and every
    window they return has at least one point and a duration that is not
    negative; otherwise both raise OverflowError. *)
Theorem X13_calculate_returns_windows (latitude longitude altitude_m : Q)
    (start end_ : datetime) (step_seconds : Z) (min_elevation : Q) :
  0 <= start ->
  start <= end_ ->
  end_ < max_instant ->
  0 < step_seconds ->
  exists (ws_sgp4 ws_skyfield : list Window),
    (forall fuel, (grid_size start end_ step_seconds < fuel)%nat ->
        Bounded.sgp4_calculate fuel satellite latitude longitude altitude_m
          start end_ step_seconds min_elevation
        = Some (if grid_fits start end_ step_seconds
                then Ok ws_sgp4 else Raise OverflowError)
        /\ Bounded.skyfield_calculate fuel start end_ step_seconds min_elevation
           = Some (if grid_fits start end_ step_seconds
                   then Ok ws_skyfield else Raise OverflowError))
    /\ forall w, In w ws_sgp4 \/ In w ws_skyfield ->
                 points w <> [] /\ (0 <= duration w)%Q.
Proof.
  intros Hvalid Hle Hend Hstep.
  set (n := grid_size start end_ step_seconds).
  set (times := grid start step_seconds n).
  set (observer := Sgp4._geodetic_to_ecef latitude longitude (altitude_m / 1000.0)).
  set (positions := flat_map (step_samples satellite observer latitude longitude times)
                             (enumerate times)).
  exists (map window_of_run (segment min_elevation None positions)),
         (map window_of_run
              (segment min_elevation None (Skyfield._calculate_positions times))).
  split.
  - intros fuel Hfuel. unfold Bounded.sgp4_calculate, Bounded.skyfield_calculate.
    rewrite (bounded_generate_times start end_ step_seconds
               Hvalid Hle Hend Hstep fuel Hfuel).
    fold n. fold times.
    destruct (grid_fits start end_ step_seconds); cbn [bind]; [|split; reflexivity].
    fold observer. rewrite calculate_positions_steps. cbn [bind].
    rewrite !find_visibility_windows_runs. split; reflexivity.
  - assert (Hwin : forall ps w,
               StronglySorted Z.lt (map time ps) ->
               In w (map window_of_run (segment min_elevation None ps)) ->
               points w <> [] /\ (0 <= duration w)%Q).
    { intros ps w Hsorted Hw.
      apply in_map_iff in Hw. destruct Hw as (r & <- & Hr).
      split; [discriminate|].
      apply (run_duration_nonneg ps min_elevation); [|exact Hr].
      now apply time_ordered_of_increasing. }
    intros w [Hw | Hw]; (eapply Hwin; [|exact Hw]).
    + subst positions. unfold enumerate. rewrite step_samples_times.
      apply StronglySorted_filter. now apply grid_increasing.
    + rewrite skyfield_positions_times. now apply grid_increasing.
Qed.

End GeneratorProperties.

(* ================================================================== *)
(** * Runs of the further properties *)
(* ================================================================== *)

Module MoreFixtures.

Local Open Scope Q_scope.

(** Samples of the scenario: elevation 5 at 00:00, 12 at 00:01, 8 at
    00:04 and 11 at 00:06. *)
Definition s0 : Position := scenario_sample plain_other 0 5.
Definition s1 : Position := scenario_sample plain_other 1 12.
Definition s4 : Position := scenario_sample plain_other 4 8.
Definition s6 : Position := scenario_sample plain_other 6 11.

End MoreFixtures.

Import MoreFixtures.

Lemma X4_witness :
  exists wa wb,
    _find_visibility_windows [s1] [] 10 = Ok wa
    /\ _find_visibility_windows [s6] [] 10 = Ok wb
    /\ _find_visibility_windows ([s1] ++ s4 :: [s6]) [] 10 = Ok (wa ++ wb).
Proof.
  apply (X4_segmentation_splits_at_gap 10 [s1] [s6] s4 []).
  vm_compute. reflexivity.
Defined.

Lemma X5_witness :
  exists ws w p rest,
    _find_visibility_windows ([s0] ++ [s1]) [] 10 = Ok (ws ++ [w])
    /\ w_end w = strftime (time s1)
    /\ points w = p :: rest
    /\ last rest p = point_of s1.
Proof.
  apply (X5_open_window_closed_at_last_sample 10 [s0] s1 []).
  vm_compute. discriminate.
Defined.

Lemma X7_witness :
  exists ws,
    _find_visibility_windows (scenario plain_other) [] 10 = Ok ws
    /\ forall w, In w ws -> (0 <= duration w)%Q.
Proof.
  apply (X7_duration_not_negative (scenario plain_other) [] 10).
  unfold time_ordered, scenario, enumerate. cbn [enumerate_from map fst snd].
  repeat constructor; vm_compute; discriminate.
Defined.

Lemma X8_witness : _generate_times 100 t0 t2 0 = None.
Proof.
  apply (X8_zero_step_never_returns t0 t2 100).
  vm_compute. discriminate.
Defined.

Lemma X10_witness :
  exists before s after,
    @Sgp4._calculate_positions scripted_math scripted_sgp4_api
       sound observer ([] ++ t1 :: t0 :: []) 0 0
    = Ok (before ++ s :: after)
    /\ map time before = filter (@propagation_ok scripted_sgp4_api sound) []
    /\ time s = t1
    /\ (rangeRate s == 0)%Q.
Proof.
  apply (@X10_no_division_by_nonpositive_time scripted_math scripted_sgp4_api
           sound observer 0%Q 0%Q [] t1 t0 []).
  - vm_compute. reflexivity.
  - vm_compute. discriminate.
Defined.

Lemma X11_witness :
  (exists positions,
      @Sgp4._calculate_positions scripted_math scripted_sgp4_api
         failing_at_t1 observer (grid t0 60 3) 0 0 = Ok positions
      /\ StronglySorted Z.lt (map time positions))
  /\ StronglySorted Z.lt
       (map time (@Skyfield._calculate_positions scripted_skyfield (grid t0 60 3))).
Proof.
  apply (@X11_samples_in_time_order scripted_math scripted_sgp4_api
           scripted_skyfield failing_at_t1 observer 0%Q 0%Q t0 60 3).
  reflexivity.
Defined.

Lemma X12_witness :
  _generate_times 1 t1 t0 60 = Some []
  /\ @Sgp4.calculate scripted_math scripted_sgp4_api 1 sound 0 0 0 t1 t0 60 10
     = Some (Ok [])
  /\ @Skyfield.calculate scripted_skyfield 1 t1 t0 60 10 = Some (Ok []).
Proof.
  apply (@X12_end_before_start_gives_no_window scripted_math scripted_sgp4_api
           scripted_skyfield sound 0 0%Q 0%Q 0%Q t1 t0 60 10%Q).
  reflexivity.
Defined.

Lemma X13_witness :
  exists (ws_sgp4 ws_skyfield : list Window),
    (forall fuel, (3 < fuel)%nat ->
        @Bounded.sgp4_calculate scripted_math scripted_sgp4_api fuel failing_at_t1
           0 0 0 t0 t2_30 60 10 = Some (Ok ws_sgp4)
        /\ @Bounded.skyfield_calculate scripted_skyfield fuel t0 t2_30 60 10
           = Some (Ok ws_skyfield))
    /\ forall w, In w ws_sgp4 \/ In w ws_skyfield ->
                 points w <> [] /\ (0 <= duration w)%Q.
Proof.
  destruct (@X13_calculate_returns_windows scripted_math scripted_sgp4_api
              scripted_skyfield failing_at_t1 0%Q 0%Q 0%Q t0 t2_30 60 10%Q)
    as (ws_sgp4 & ws_skyfield & Hrun & Hwin).
  - vm_compute. discriminate.
  - vm_compute. discriminate.
  - reflexivity.
  - reflexivity.
  - exists ws_sgp4, ws_skyfield. split; [exact Hrun | exact Hwin].
Defined.
